(** * lichess-bot: challenges and games (model.py)

    A shallow embedding of [model.py]: the [Challenge] acceptance policy,
    the [Game] deadline timers and the [Player] snapshot, followed by the
    properties the specification states about them.

    Conventions of the embedding.
    - The server payloads are [Dict[str, Any]] in the source.  They are
      modelled as Python values ([pyval]) whose operations fail the way
      Python's do ([TypeError], [KeyError], [AttributeError],
      [OverflowError]).  JSON numbers are integers (what the server sends);
      a character of a string is a code point below 256.
    - A delay of a timer is kept as the exact rational: the model does not
      round it to a binary64 float.
    - A call is evaluated at one instant [now] of the clock the timers read.
    - The mapping of recent bot challenges is a shared mutable object: it is
      threaded through the calls as part of the [world].
    - [Player] objects live in a heap and are named by their address, so
      that aliasing ([me] is [white]) is distinct from equality of fields. *)

From Stdlib Require Import ZArith QArith String Ascii List Bool Lia.
From stdpp Require Import base option gmap strings list.

#[local] Set Warnings "-register-all".
#[local] Open Scope Z_scope.
#[local] Open Scope string_scope.

(** ** Python values and exceptions *)

Inductive pyval : Type :=
| PNone
| PBool (b : bool)
| PInt (z : Z)
| PStr (s : string)
| PList (l : list pyval)
| PDict (d : gmap string pyval).

(** The exception classes the modelled operations raise; each derives from
    [Exception]. *)
Inductive exn : Type := TypeError | KeyError | AttributeError | OverflowError.

Inductive result (A : Type) : Type :=
| Ok (a : A)
| Raise (e : exn).
Arguments Ok {A} a.
Arguments Raise {A} e.

#[global] Instance result_ret : MRet result := λ A, Ok.
#[global] Instance result_bind : MBind result := λ A B f m,
  match m with Ok a => f a | Raise e => Raise e end.

(** [bool(v)]. *)
Definition py_truthy (v : pyval) : bool :=
  match v with
  | PNone => false
  | PBool b => b
  | PInt z => negb (Z.eqb z 0)
  | PStr s => negb (Nat.eqb (String.length s) 0)
  | PList l => negb (Nat.eqb (length l) 0)
  | PDict d => negb (Nat.eqb (size d) 0)
  end.

(** [a or b], for an operand [b] whose evaluation has no effect. *)
Definition py_or (a b : pyval) : pyval := if py_truthy a then a else b.

(** [v is not None]. *)
Definition py_is_not_none (v : pyval) : bool :=
  match v with PNone => false | _ => true end.

(** [d.get(k)] on a dict. *)
Definition dict_get (d : gmap string pyval) (k : string) : pyval :=
  default PNone (d !! k).

(** [d[k]] on a dict. *)
Definition dict_getitem (d : gmap string pyval) (k : string) : result pyval :=
  match d !! k with Some v => Ok v | None => Raise KeyError end.

(** [v[k]] for a string key [k]: only a dict can be indexed by a string. *)
Definition py_getitem (v : pyval) (k : string) : result pyval :=
  match v with
  | PDict d => dict_getitem d k
  | _ => Raise TypeError
  end.

(** [v.get(k, dflt)]: only a dict has the method. *)
Definition py_get (v : pyval) (k : string) (dflt : pyval) : result pyval :=
  match v with
  | PDict d => Ok (default dflt (d !! k))
  | _ => Raise AttributeError
  end.

(** [v == s] for a string [s]. *)
Definition py_eq_str (v : pyval) (s : string) : bool :=
  match v with PStr s' => bool_decide (s' = s) | _ => false end.

(** [v in l] for a list [l] of strings: some element equals [v]. *)
Definition py_in_list (v : pyval) (l : list string) : bool :=
  existsb (py_eq_str v) l.

(** The integer a value stands for in arithmetic and comparisons; [bool] is
    a subclass of [int]. *)
Definition py_as_int (v : pyval) : option Z :=
  match v with
  | PInt z => Some z
  | PBool b => Some (Z.b2z b)
  | _ => None
  end.

(** [len(v)]. *)
Definition py_len (v : pyval) : result Z :=
  match v with
  | PStr s => Ok (Z.of_nat (String.length s))
  | PList l => Ok (Z.of_nat (length l))
  | PDict d => Ok (Z.of_nat (size d))
  | _ => Raise TypeError
  end.

(** [str.lower] on code points below 256: the capital letters of ASCII and
    of Latin-1 (all of U+00C0..U+00DE but the multiplication sign). *)
Definition lower_ascii (a : ascii) : ascii :=
  let n := nat_of_ascii a in
  if (Nat.leb 65 n && Nat.leb n 90)
     || (Nat.leb 192 n && Nat.leb n 222 && negb (Nat.eqb n 215))
  then ascii_of_nat (n + 32) else a.

Fixpoint lower (s : string) : string :=
  match s with
  | EmptyString => EmptyString
  | String a r => String (lower_ascii a) (lower r)
  end.

(** [v.lower()]: only a string has the method. *)
Definition py_lower (v : pyval) : result string :=
  match v with PStr s => Ok (lower s) | _ => Raise AttributeError end.

(** [a + b]. *)
Definition py_add (a b : pyval) : result pyval :=
  match py_as_int a, py_as_int b with
  | Some x, Some y => Ok (PInt (x + y))
  | _, _ =>
    match a, b with
    | PStr s, PStr t => Ok (PStr (s ++ t))
    | PList l, PList m => Ok (PList (l ++ m)%list)
    | _, _ => Raise TypeError
    end
  end.

(** The least magnitude that is too large for a float: it rounds to
    2^1024. *)
Definition float_overflow : Z := 2 ^ 1024 - 2 ^ 970.

(** [v / d] for a positive integer literal [d]: true division, which yields
    a float.  The quotient is kept exact when it is in the range of floats. *)
Definition py_truediv (v : pyval) (d : positive) : result Q :=
  match py_as_int v with
  | Some z =>
    if Z.ltb (Z.abs z) (float_overflow * Z.pos d) then Ok (z # d)%Q
    else Raise OverflowError
  | None => Raise TypeError
  end.

(** [x + z] for a float [x] and an integer [z], which is converted to a
    float first. *)
Definition float_add_int (x : Q) (z : Z) : result Q :=
  if Z.ltb (Z.abs z) float_overflow then Ok (x + inject_Z z)%Q
  else Raise OverflowError.

(** Keys of a Python dict: the hashable values.  [True] and [1] (and
    [False] and [0]) hash and compare equal, so they are one key. *)
Inductive pykey : Type := KNone | KInt (z : Z) | KStr (s : string).

#[global] Instance pykey_eq_dec : EqDecision pykey.
Proof. solve_decision. Defined.

#[global] Instance pykey_countable : Countable pykey.
Proof.
  refine (inj_countable'
    (λ k, match k with
          | KNone => inl ()
          | KInt z => inr (inl z)
          | KStr s => inr (inr s)
          end)
    (λ x, match x with
          | inl _ => KNone
          | inr (inl z) => KInt z
          | inr (inr s) => KStr s
          end) _).
  by intros [].
Defined.

(** The key a value is stored under; lists and dicts are unhashable. *)
Definition py_key (v : pyval) : result pykey :=
  match v with
  | PNone => Ok KNone
  | PBool b => Ok (KInt (Z.b2z b))
  | PInt z => Ok (KInt z)
  | PStr s => Ok (KStr s)
  | PList _ | PDict _ => Raise TypeError
  end.

(** ** Numbers of the configuration *)

(** A bound of the configuration: an integer, or [math.inf]. *)
Inductive num : Type := Fin (z : Z) | Inf.

Definition num_leb (a b : num) : bool :=
  match a, b with
  | Fin x, Fin y => Z.leb x y
  | _, Inf => true
  | Inf, Fin _ => false
  end.

(** [n == math.inf]. *)
Definition num_is_inf (n : num) : bool :=
  match n with Inf => true | Fin _ => false end.

(** [lo <= v]: a [TypeError] unless [v] is a number. *)
Definition num_le_py (lo : num) (v : pyval) : result bool :=
  match py_as_int v with
  | Some z => Ok (num_leb lo (Fin z))
  | None => Raise TypeError
  end.

(** [v <= hi]. *)
Definition py_le_num (v : pyval) (hi : num) : result bool :=
  match py_as_int v with
  | Some z => Ok (num_leb (Fin z) hi)
  | None => Raise TypeError
  end.

(** The chained comparison [lo <= v <= hi]: [v <= hi] is evaluated only
    when [lo <= v] holds. *)
Definition py_between (lo : num) (v : pyval) (hi : num) : result bool :=
  b ← num_le_py lo v;
  if b : bool then py_le_num v hi else Ok false.

(** ** The collaborators that are not part of model.py *)

(** Modelled from the spec: the [Timer] class of timer.py, "a
    countdown/expiry primitive" that is armed with a delay and then polled
    for "expired or not"; a timer armed with a zero delay "starts expired".
    [Timer_new now d] is [Timer(d)] evaluated at instant [now], and
    [is_expired now t] is [t.is_expired()] evaluated at [now]. *)
Class Clock : Type := {
  instant : Type;
  Timer : Type;
  Timer_new : instant → Q → Timer;
  is_expired : instant → Timer → bool
}.

(** Modelled from the spec: a clock that counts seconds, for which a timer
    is expired once its delay has elapsed since it was armed, so that a
    timer armed with a zero delay "starts expired". *)
Record countdown : Type := { duration : Q; starting_time : Q }.

Definition seconds_clock : Clock := {|
  instant := Q;
  Timer := countdown;
  Timer_new := λ now d, {| duration := d; starting_time := now |};
  is_expired := λ now t, Qle_bool (duration t) (now - starting_time t)%Q
|}.

(** Modelled from the spec: the [Configuration] of config.py, as far as the
    challenge policy reads it: "allowed variants, allowed speeds, min/max
    increment, min/max base seconds, min/max days-per-turn (with unbounded
    representable as infinity), allowed modes, accept-bot flag, only-bot
    flag, block list of names, max recent bot challenges (optional)". *)
Record Configuration : Type := {
  variants : list string;
  time_controls : list string;
  max_increment : num;
  min_increment : num;
  max_base : num;
  min_base : num;
  max_days : num;
  min_days : num;
  modes : list string;
  accept_bot : bool;
  only_bot : bool;
  block_list : list string;
  max_recent_bot_challenges : option Z
}.

(** The profile of the local account, of which the constructor reads
    [user_profile["username"]], a string. *)
Record UserProfile : Type := { profile_username : string }.

(** The world a call runs in: the caller's mapping from challenger name to
    the timers of that challenger's recent challenges (a [defaultdict] of
    lists, which [is_supported_recent] mutates in place), and the ids of
    the challenges an error was logged for. *)
Record world `{clock : Clock} : Type := {
  recent_bot_challenges : gmap pykey (list Timer);
  error_log : list pyval
}.

(** Computations that read and write the world and may raise. *)
Definition M `{clock : Clock} (A : Type) : Type := world → result A * world.

#[global] Instance M_ret `{clock : Clock} : MRet M := λ A a w, (Ok a, w).
#[global] Instance M_bind `{clock : Clock} : MBind M := λ A B f m w,
  match m w with
  | (Ok a, w') => f a w'
  | (Raise e, w') => (Raise e, w')
  end.

(** A computation that only may raise, run in the world. *)
Definition lift `{clock : Clock} {A : Type} (r : result A) : M A := λ w, (r, w).

(** [try: body except Exception: handler].  Every modelled exception class
    derives from [Exception]; what [body] did to the world before it raised
    stays done. *)
Definition try_except `{clock : Clock} {A : Type} (body : M A) (handler : M A) : M A := λ w,
  match body w with
  | (Ok a, w') => (Ok a, w')
  | (Raise _, w') => handler w'
  end.

(** [logger.exception(...)] with the id of the challenge. *)
Definition log_exception `{clock : Clock} (challenge_id : pyval) : M unit := λ w,
  (Ok (), {| recent_bot_challenges := recent_bot_challenges w;
             error_log := (error_log w ++ [challenge_id])%list |}).

(** ** Challenge *)

Module Challenge.

Record t : Type := {
  id : pyval;
  rated : pyval;
  variant : pyval;
  perf_name : pyval;
  speed : pyval;
  increment : pyval;
  base : pyval;
  days : pyval;
  challenger : pyval;
  challenger_title : pyval;
  challenger_is_bot : bool;
  challenger_master_title : pyval;
  challenger_name : pyval;
  challenger_rating_int : pyval;
  challenger_rating : pyval;
  from_self : bool
}.

(** [c_info.get("timeControl", {}).get(k)]. *)
Definition time_control_get (c_info : gmap string pyval) (k : string) : result pyval :=
  py_get (default (PDict ∅) (c_info !! "timeControl")) k PNone.

(** [Challenge.__init__]. *)
Definition init (c_info : gmap string pyval) (user_profile : UserProfile) : result t :=
  id_ ← dict_getitem c_info "id";
  rated_ ← dict_getitem c_info "rated";
  variant_ ← dict_getitem c_info "variant" ≫= (λ v, py_getitem v "key");
  perf_name_ ← dict_getitem c_info "perf" ≫= (λ v, py_getitem v "name");
  speed_ ← dict_getitem c_info "speed";
  increment_ ← time_control_get c_info "increment";
  base_ ← time_control_get c_info "limit";
  days_ ← time_control_get c_info "daysPerTurn";
  let challenger_ := py_or (dict_get c_info "challenger") (PDict ∅) in
  title ← py_get challenger_ "title" PNone;
  let is_bot := py_eq_str title "BOT" in
  let master_title := if negb is_bot then title else PNone in
  name ← py_get challenger_ "name" (PStr "Anonymous");
  rating_int ← py_get challenger_ "rating" (PInt 0);
  let rating := py_or rating_int (PStr "?") in
  Ok {| id := id_; rated := rated_; variant := variant_;
        perf_name := perf_name_; speed := speed_;
        increment := increment_; base := base_; days := days_;
        challenger := challenger_; challenger_title := title;
        challenger_is_bot := is_bot;
        challenger_master_title := master_title;
        challenger_name := name;
        challenger_rating_int := rating_int;
        challenger_rating := rating;
        from_self := py_eq_str name (profile_username user_profile) |}.

(** [Challenge.is_supported_variant]. *)
Definition is_supported_variant (c : t) (challenge_cfg : Configuration) : bool :=
  py_in_list (variant c) (variants challenge_cfg).

(** [Challenge.is_supported_time_control]. *)
Definition is_supported_time_control (c : t) (challenge_cfg : Configuration)
  : result bool :=
  let speeds := time_controls challenge_cfg in
  let increment_max := max_increment challenge_cfg in
  let increment_min := min_increment challenge_cfg in
  let base_max := max_base challenge_cfg in
  let base_min := min_base challenge_cfg in
  let days_max := max_days challenge_cfg in
  let days_min := min_days challenge_cfg in
  if negb (py_in_list (speed c) speeds) then Ok false
  else if py_is_not_none (base c) && py_is_not_none (increment c) then
    (* Normal clock game *)
    inc_ok ← py_between increment_min (increment c) increment_max;
    if inc_ok : bool then py_between base_min (base c) base_max else Ok false
  else if py_is_not_none (days c) then
    (* Correspondence game *)
    py_between days_min (days c) days_max
  else
    (* Unlimited game *)
    Ok (num_is_inf days_max).

(** [Challenge.mode]. *)
Definition mode (c : t) : string :=
  if py_truthy (rated c) then "rated" else "casual".

(** [Challenge.score]. *)
Definition score (c : t) : result pyval :=
  let rated_bonus := if py_truthy (rated c) then 200 else 0 in
  let titled_bonus := if py_truthy (challenger_master_title c) then 200 else 0 in
  with_rated ← py_add (challenger_rating_int c) (PInt rated_bonus);
  py_add with_rated (PInt titled_bonus).

(** [Challenge.is_supported_mode]. *)
Definition is_supported_mode (c : t) (challenge_cfg : Configuration) : bool :=
  py_in_list (PStr (if py_truthy (rated c) then "rated" else "casual"))
             (modes challenge_cfg).

(** [Challenge.decline_due_to]. *)
Definition decline_due_to (requirement_met : bool) (decline_reason : string)
  : option string :=
  if requirement_met then None else Some decline_reason.

(** [bool(r)] for an optional string. *)
Definition reason_truthy (r : option string) : bool :=
  match r with
  | Some s => negb (Nat.eqb (String.length s) 0)
  | None => false
  end.

Section WithClock.
Context `{clock : Clock}.

(** [Challenge.is_supported_recent].  Reading the entry of a [defaultdict]
    hashes the key first, and yields the empty list for a new key. *)
Definition is_supported_recent (now : instant) (c : t) (config : Configuration)
  : M bool := λ w,
  match py_key (challenger_name c) with
  | Raise e => (Raise e, w)
  | Ok k =>
    (* Filter out old challenges *)
    let kept := List.filter (λ timer, negb (is_expired now timer))
                            (default [] (recent_bot_challenges w !! k)) in
    let w' := {| recent_bot_challenges := <[k := kept]> (recent_bot_challenges w);
                 error_log := error_log w |} in
    let max_recent_challenges := max_recent_bot_challenges config in
    (Ok (negb (challenger_is_bot c)
         || match max_recent_challenges with
            | None => true
            | Some limit =>
              Z.ltb (Z.of_nat (length (default [] (recent_bot_challenges w' !! k)))) limit
            end),
     w')
  end.

(** [a or b] on optional strings: [b] is evaluated only when [a] is falsy. *)
Definition or_else (a b : M (option string)) : M (option string) :=
  r ← a; if reason_truthy r then mret r else b.

(** The suite of the [try] statement of [Challenge.is_supported]. *)
Definition is_supported_body (now : instant) (c : t) (config : Configuration)
  : M (bool * option string) :=
  if from_self c then mret (true, None)
  else
    decline_reason ←
      or_else (mret (decline_due_to
                       (accept_bot config || negb (challenger_is_bot c)) "noBot"))
     (or_else (mret (decline_due_to
                       (negb (only_bot config) || challenger_is_bot c) "onlyBot"))
     (or_else (ok ← lift (is_supported_time_control c config);
               mret (decline_due_to ok "timeControl"))
     (or_else (mret (decline_due_to (is_supported_variant c config) "variant"))
     (or_else (mret (decline_due_to (is_supported_mode c config)
                       (if py_truthy (rated c) then "casual" else "rated")))
     (or_else (mret (decline_due_to
                       (negb (py_in_list (challenger_name c) (block_list config)))
                       "generic"))
              (ok ← is_supported_recent now c config;
               mret (decline_due_to ok "later")))))));
    mret (bool_decide (decline_reason = None), decline_reason).

(** [Challenge.is_supported]. *)
Definition is_supported (now : instant) (c : t) (config : Configuration)
  : M (bool * option string) :=
  try_except (is_supported_body now c config)
             (log_exception (id c);; mret (false, Some "generic")).

End WithClock.

End Challenge.

(** ** Player *)

Module Player.

Record t : Type := {
  name : pyval;
  title : pyval;
  rating : pyval;
  provisional : pyval;
  aiLevel : pyval
}.

(** [Player.__init__]; the argument is whatever the game payload holds for
    the colour, [None] when it holds nothing. *)
Definition init (json : pyval) : result t :=
  name_ ← py_get json "name" PNone;
  title_ ← py_get json "title" PNone;
  rating_ ← py_get json "rating" PNone;
  provisional_ ← py_get json "provisional" PNone;
  aiLevel_ ← py_get json "aiLevel" PNone;
  Ok {| name := name_; title := title_; rating := rating_;
        provisional := provisional_; aiLevel := aiLevel_ |}.

End Player.

(** The heap of [Player] objects: an object is named by its address, and a
    new object gets the next free one. *)
Abbreviation loc := nat (only parsing).
Abbreviation heap := (list Player.t) (only parsing).

Definition alloc (h : heap) (p : Player.t) : loc * heap := (length h, (h ++ [p])%list).

(** ** Game *)

Module Game.

Definition ten_years_in_ms : Z := 1000 * 3600 * 24 * 365 * 10.

Section WithClock.
Context `{clock : Clock}.

Record t : Type := {
  username : string;
  id : pyval;
  speed : pyval;
  clock_initial : pyval;
  clock_increment : pyval;
  perf_name : pyval;
  variant_name : pyval;
  white : loc;
  black : loc;
  initial_fen : pyval;
  state : pyval;
  is_white : bool;
  my_color : string;
  opponent_color : string;
  me : loc;
  opponent : loc;
  base_url : string;
  abort_time : Timer;
  terminate_time : Timer;
  disconnect_time : Timer
}.

(** [Game.__init__], run at instant [now] on the heap [h]. *)
Definition init (now : instant) (json : gmap string pyval)
    (username_ base_url_ : string) (abort_time_ : Z) (h : heap)
  : result (t * heap) :=
  let id_ := dict_get json "id" in
  let speed_ := dict_get json "speed" in
  let clock := py_or (dict_get json "clock") (PDict ∅) in
  clock_initial_ ← py_get clock "initial" (PInt ten_years_in_ms);
  clock_increment_ ← py_get clock "increment" (PInt 0);
  perf_name_ ← py_get (py_or (dict_get json "perf") (PDict ∅)) "name" (PStr "{perf?}");
  variant_name_ ← py_getitem (dict_get json "variant") "name";
  white_player ← Player.init (dict_get json "white");
  let '(white_, h1) := alloc h white_player in
  black_player ← Player.init (dict_get json "black");
  let '(black_, h2) := alloc h1 black_player in
  let initial_fen_ := dict_get json "initialFen" in
  let state_ := dict_get json "state" in
  white_name ← py_lower (py_or (Player.name white_player) (PStr ""));
  let is_white_ := bool_decide (white_name = lower username_) in
  total_ms ← py_add clock_initial_ clock_increment_;
  total_s ← py_truediv total_ms 1000;
  patient ← float_add_int total_s abort_time_;
  Ok ({| username := username_;
         id := id_;
         speed := speed_;
         clock_initial := clock_initial_;
         clock_increment := clock_increment_;
         perf_name := perf_name_;
         variant_name := variant_name_;
         white := white_;
         black := black_;
         initial_fen := initial_fen_;
         state := state_;
         is_white := is_white_;
         my_color := if is_white_ then "white" else "black";
         opponent_color := if is_white_ then "black" else "white";
         me := if is_white_ then white_ else black_;
         opponent := if is_white_ then black_ else white_;
         base_url := base_url_;
         abort_time := Timer_new now (inject_Z abort_time_);
         terminate_time := Timer_new now (patient + 60)%Q;
         disconnect_time := Timer_new now 0%Q |}, h2).

(** The assignments [self.abort_time = v], [self.terminate_time = v] and
    [self.disconnect_time = v]. *)
Definition set_abort_time (v : Timer) (g : t) : t :=
  {| username := username g; id := id g; speed := speed g;
     clock_initial := clock_initial g; clock_increment := clock_increment g;
     perf_name := perf_name g; variant_name := variant_name g;
     white := white g; black := black g; initial_fen := initial_fen g;
     state := state g; is_white := is_white g; my_color := my_color g;
     opponent_color := opponent_color g; me := me g; opponent := opponent g;
     base_url := base_url g;
     abort_time := v;
     terminate_time := terminate_time g;
     disconnect_time := disconnect_time g |}.

Definition set_terminate_time (v : Timer) (g : t) : t :=
  {| username := username g; id := id g; speed := speed g;
     clock_initial := clock_initial g; clock_increment := clock_increment g;
     perf_name := perf_name g; variant_name := variant_name g;
     white := white g; black := black g; initial_fen := initial_fen g;
     state := state g; is_white := is_white g; my_color := my_color g;
     opponent_color := opponent_color g; me := me g; opponent := opponent g;
     base_url := base_url g;
     abort_time := abort_time g;
     terminate_time := v;
     disconnect_time := disconnect_time g |}.

Definition set_disconnect_time (v : Timer) (g : t) : t :=
  {| username := username g; id := id g; speed := speed g;
     clock_initial := clock_initial g; clock_increment := clock_increment g;
     perf_name := perf_name g; variant_name := variant_name g;
     white := white g; black := black g; initial_fen := initial_fen g;
     state := state g; is_white := is_white g; my_color := my_color g;
     opponent_color := opponent_color g; me := me g; opponent := opponent g;
     base_url := base_url g;
     abort_time := abort_time g;
     terminate_time := terminate_time g;
     disconnect_time := v |}.

(** [Game.is_abortable]. *)
Definition is_abortable (g : t) : result bool :=
  moves ← py_getitem (state g) "moves";
  n ← py_len moves;
  Ok (Z.ltb n 6).

(** [Game.ping], run at instant [now]: the game after the call. *)
Definition ping (now : instant) (g : t) (abort_in terminate_in disconnect_in : Q)
  : result t :=
  abortable ← is_abortable g;
  let g1 := if abortable : bool then set_abort_time (Timer_new now abort_in) g else g in
  let g2 := set_terminate_time (Timer_new now terminate_in) g1 in
  Ok (set_disconnect_time (Timer_new now disconnect_in) g2).

(** [Game.should_abort_now]: the timer is polled only when the game is
    abortable. *)
Definition should_abort_now (now : instant) (g : t) : result bool :=
  abortable ← is_abortable g;
  if abortable : bool then Ok (is_expired now (abort_time g)) else Ok false.

(** [Game.should_terminate_now]. *)
Definition should_terminate_now (now : instant) (g : t) : bool :=
  is_expired now (terminate_time g).

(** [Game.should_disconnect_now]. *)
Definition should_disconnect_now (now : instant) (g : t) : bool :=
  is_expired now (disconnect_time g).

(** [Game.my_remaining_seconds]. *)
Definition my_remaining_seconds (g : t) : result Q :=
  ms ← (if is_white g then py_getitem (state g) "wtime"
        else py_getitem (state g) "btime");
  py_truediv ms 1000.

End WithClock.

End Game.

(** ** The notions the specification uses *)

(** "[v] is in the allowed set [l]". *)
Definition allowed (v : pyval) (l : list string) : Prop :=
  ∃ s, v = PStr s ∧ s ∈ l.

Definition num_le (a b : num) : Prop :=
  match a, b with
  | Fin x, Fin y => (x ≤ y)%Z
  | _, Inf => True
  | Inf, Fin _ => False
  end.

(** "[v] lies within the inclusive range from [lo] to [hi]". *)
Definition within (lo hi : num) (v : pyval) : Prop :=
  ∃ z, py_as_int v = Some z ∧ num_le lo (Fin z) ∧ num_le (Fin z) hi.

(** A name "treated as the empty string when absent". *)
Definition name_or_empty (v : pyval) : string :=
  match v with PStr s => s | _ => "" end.

(** The field [k] of the clock object of a game payload, when the payload
    has a clock object that carries it. *)
Definition clock_field (json : gmap string pyval) (k : string) : option pyval :=
  match json !! "clock" with
  | Some (PDict clock) => clock !! k
  | _ => None
  end.

Definition is_object (v : pyval) : Prop := ∃ d, v = PDict d.

Definition object_or_nothing (v : pyval) : Prop :=
  py_truthy v = false ∨ is_object v.

(** A game payload of the shape the server sends: [variant] is an object
    with a name, [white] and [black] are objects, [clock] and [perf] are
    objects when they are there, a name of the white player is a string,
    and the clock fields are numbers of a size a float can hold. *)
Record game_payload_ok (json : gmap string pyval) : Prop := {
  ok_clock : object_or_nothing (dict_get json "clock");
  ok_perf : object_or_nothing (dict_get json "perf");
  ok_variant : ∃ d n, json !! "variant" = Some (PDict d) ∧ d !! "name" = Some n;
  ok_white : ∃ d, json !! "white" = Some (PDict d)
                ∧ (py_truthy (dict_get d "name") = false
                   ∨ ∃ s, d !! "name" = Some (PStr s));
  ok_black : is_object (dict_get json "black");
  ok_clock_fields : ∃ initial increment_,
    py_as_int (default (PInt Game.ten_years_in_ms) (clock_field json "initial"))
      = Some initial
    ∧ py_as_int (default (PInt 0) (clock_field json "increment")) = Some increment_
    ∧ (Z.abs (initial + increment_) < float_overflow * 1000)%Z
}.

(** "The number of moves the state of the game records": the length of
    the entry [moves] of the state, as [len] measures it. *)
Definition moves_played `{clock : Clock} (g : Game.t) : result Z :=
  moves ← py_getitem (Game.state g) "moves";
  py_len moves.

(** Two games that differ in their timers at most. *)
Definition same_but_timers `{clock : Clock} (g g' : Game.t) : Prop :=
  Game.username g' = Game.username g
  ∧ Game.id g' = Game.id g
  ∧ Game.speed g' = Game.speed g
  ∧ Game.clock_initial g' = Game.clock_initial g
  ∧ Game.clock_increment g' = Game.clock_increment g
  ∧ Game.perf_name g' = Game.perf_name g
  ∧ Game.variant_name g' = Game.variant_name g
  ∧ Game.white g' = Game.white g
  ∧ Game.black g' = Game.black g
  ∧ Game.initial_fen g' = Game.initial_fen g
  ∧ Game.state g' = Game.state g
  ∧ Game.is_white g' = Game.is_white g
  ∧ Game.my_color g' = Game.my_color g
  ∧ Game.opponent_color g' = Game.opponent_color g
  ∧ Game.me g' = Game.me g
  ∧ Game.opponent g' = Game.opponent g
  ∧ Game.base_url g' = Game.base_url g.

(** The entry [k] of the [timeControl] object of a challenge payload,
    [None] when there is no such object or no such entry. *)
Definition time_control_field (c_info : gmap string pyval) (k : string) : pyval :=
  match c_info !! "timeControl" with
  | Some (PDict tc) => dict_get tc k
  | _ => PNone
  end.

(** The entry [k] of the [challenger] object of a challenge payload, when
    the payload has such an object and it carries the entry. *)
Definition challenger_field (c_info : gmap string pyval) (k : string)
  : option pyval :=
  match c_info !! "challenger" with
  | Some (PDict who) => who !! k
  | _ => None
  end.

(** The name of the perf of a game payload, when the payload has a perf
    object that carries one. *)
Definition perf_field (json : gmap string pyval) : option pyval :=
  match json !! "perf" with
  | Some (PDict perf) => perf !! "name"
  | _ => None
  end.

(** The entry of the state that holds the clock of the local account. *)
Definition my_clock_key `{clock : Clock} (g : Game.t) : string :=
  if Game.is_white g then "wtime" else "btime".

(** The reasons a decline can carry. *)
Definition decline_reasons : list string :=
  ["noBot"; "onlyBot"; "timeControl"; "variant"; "casual"; "rated"; "generic";
   "later"].

(** The world once an error about the challenge [c] is logged. *)
Definition logged `{clock : Clock} (c : Challenge.t) (w : world) : world :=
  {| recent_bot_challenges := recent_bot_challenges w;
     error_log := (error_log w ++ [Challenge.id c])%list |}.


Section Policy.
Context `{clock : Clock}.

(** The policy as the specification words it: "an ordered sequence of named
    predicate checks evaluated in a loop, returning the first failing
    entry's reason". *)
Definition policy_checks (now : instant) (c : Challenge.t) (config : Configuration)
  : list (M bool * string) :=
  [ (mret (accept_bot config || negb (Challenge.challenger_is_bot c)), "noBot");
    (mret (negb (only_bot config) || Challenge.challenger_is_bot c), "onlyBot");
    (lift (Challenge.is_supported_time_control c config), "timeControl");
    (mret (Challenge.is_supported_variant c config), "variant");
    (mret (Challenge.is_supported_mode c config),
     if py_truthy (Challenge.rated c) then "casual" else "rated");
    (mret (negb (py_in_list (Challenge.challenger_name c) (block_list config))),
     "generic");
    (Challenge.is_supported_recent now c config, "later") ].

Fixpoint first_failure (checks : list (M bool * string)) : M (option string) :=
  match checks with
  | [] => mret None
  | (check, reason) :: rest =>
    passed ← check;
    if passed : bool then first_failure rest else mret (Some reason)
  end.

(** The decision for a challenge that is not from the local account:
    accepted when no check fails, declined with the reason of the first
    check that fails, and declined with "generic" (and logged) when a check
    raises. *)
Definition policy_decision (now : instant) (c : Challenge.t) (config : Configuration)
  : M (bool * option string) := λ w,
  match first_failure (policy_checks now c config) w with
  | (Ok None, w') => (Ok (true, None), w')
  | (Ok (Some reason), w') => (Ok (false, Some reason), w')
  | (Raise _, w') =>
    (Ok (false, Some "generic"),
     {| recent_bot_challenges := recent_bot_challenges w';
        error_log := (error_log w' ++ [Challenge.id c])%list |})
  end.

End Policy.

(** ** Sample inputs *)

Module Samples.

#[local] Existing Instance seconds_clock.

Definition config : Configuration := {|
  variants := ["standard"; "chess960"];
  time_controls := ["bullet"; "blitz"; "rapid"; "correspondence"];
  max_increment := Fin 180;
  min_increment := Fin 0;
  max_base := Fin 1800;
  min_base := Fin 60;
  max_days := Fin 14;
  min_days := Fin 1;
  modes := ["casual"; "rated"];
  accept_bot := false;
  only_bot := false;
  block_list := ["troll"];
  max_recent_bot_challenges := Some 2
|}.

Definition profile : UserProfile := {| profile_username := "mybot" |}.

(** A rated blitz challenge from a bot, in a variant that is not allowed. *)
Definition bot_challenge_info : gmap string pyval :=
  {[ "id" := PStr "abc123";
     "rated" := PBool true;
     "variant" := PDict {[ "key" := PStr "atomic" ]};
     "perf" := PDict {[ "name" := PStr "Blitz" ]};
     "speed" := PStr "blitz";
     "timeControl" := PDict {[ "limit" := PInt 300; "increment" := PInt 3 ]};
     "challenger" := PDict {[ "name" := PStr "otherbot"; "title" := PStr "BOT";
                              "rating" := PInt 2000 ]} ]}.

(** A challenge the local account sent to itself, with a malformed clock. *)
Definition own_challenge_info : gmap string pyval :=
  {[ "id" := PStr "self01";
     "rated" := PBool false;
     "variant" := PDict {[ "key" := PStr "atomic" ]};
     "perf" := PDict {[ "name" := PStr "Blitz" ]};
     "speed" := PStr "ultra";
     "timeControl" := PDict {[ "limit" := PStr "300"; "increment" := PStr "3" ]};
     "challenger" := PDict {[ "name" := PStr "mybot"; "title" := PStr "BOT" ]} ]}.

(** A challenge with a base time and no increment and no days per turn; the
    base time is not even a number. *)
Definition base_only_info : gmap string pyval :=
  {[ "id" := PStr "base01";
     "rated" := PBool false;
     "variant" := PDict {[ "key" := PStr "standard" ]};
     "perf" := PDict {[ "name" := PStr "Rapid" ]};
     "speed" := PStr "rapid";
     "timeControl" := PDict {[ "limit" := PStr "900" ]};
     "challenger" := PDict {[ "name" := PStr "alice" ]} ]}.

(** A human challenge whose increment is a string: the comparison with the
    bounds of the configuration raises. *)
Definition malformed_info : gmap string pyval :=
  {[ "id" := PStr "bad001";
     "rated" := PBool false;
     "variant" := PDict {[ "key" := PStr "standard" ]};
     "perf" := PDict {[ "name" := PStr "Blitz" ]};
     "speed" := PStr "blitz";
     "timeControl" := PDict {[ "limit" := PInt 300; "increment" := PStr "3" ]};
     "challenger" := PDict {[ "name" := PStr "alice" ]} ]}.

(** The challenges made of these payloads. *)
Definition bot_challenge : Challenge.t := {|
  Challenge.id := PStr "abc123";
  Challenge.rated := PBool true;
  Challenge.variant := PStr "atomic";
  Challenge.perf_name := PStr "Blitz";
  Challenge.speed := PStr "blitz";
  Challenge.increment := PInt 3;
  Challenge.base := PInt 300;
  Challenge.days := PNone;
  Challenge.challenger := PDict {[ "name" := PStr "otherbot"; "title" := PStr "BOT";
                                   "rating" := PInt 2000 ]};
  Challenge.challenger_title := PStr "BOT";
  Challenge.challenger_is_bot := true;
  Challenge.challenger_master_title := PNone;
  Challenge.challenger_name := PStr "otherbot";
  Challenge.challenger_rating_int := PInt 2000;
  Challenge.challenger_rating := PInt 2000;
  Challenge.from_self := false
|}.

Definition own_challenge : Challenge.t := {|
  Challenge.id := PStr "self01";
  Challenge.rated := PBool false;
  Challenge.variant := PStr "atomic";
  Challenge.perf_name := PStr "Blitz";
  Challenge.speed := PStr "ultra";
  Challenge.increment := PStr "3";
  Challenge.base := PStr "300";
  Challenge.days := PNone;
  Challenge.challenger := PDict {[ "name" := PStr "mybot"; "title" := PStr "BOT" ]};
  Challenge.challenger_title := PStr "BOT";
  Challenge.challenger_is_bot := true;
  Challenge.challenger_master_title := PNone;
  Challenge.challenger_name := PStr "mybot";
  Challenge.challenger_rating_int := PInt 0;
  Challenge.challenger_rating := PStr "?";
  Challenge.from_self := true
|}.

(** A casual challenge in standard chess from the human "alice". *)
Definition from_alice (id_ perf_ speed_ : string) (increment_ base_ days_ : pyval)
  : Challenge.t := {|
  Challenge.id := PStr id_;
  Challenge.rated := PBool false;
  Challenge.variant := PStr "standard";
  Challenge.perf_name := PStr perf_;
  Challenge.speed := PStr speed_;
  Challenge.increment := increment_;
  Challenge.base := base_;
  Challenge.days := days_;
  Challenge.challenger := PDict {[ "name" := PStr "alice" ]};
  Challenge.challenger_title := PNone;
  Challenge.challenger_is_bot := false;
  Challenge.challenger_master_title := PNone;
  Challenge.challenger_name := PStr "alice";
  Challenge.challenger_rating_int := PInt 0;
  Challenge.challenger_rating := PStr "?";
  Challenge.from_self := false
|}.

Definition base_only : Challenge.t :=
  from_alice "base01" "Rapid" "rapid" PNone (PStr "900") PNone.

Definition malformed : Challenge.t :=
  from_alice "bad001" "Blitz" "blitz" (PStr "3") (PInt 300) PNone.

(** Worlds of the clock that counts seconds: nothing recorded; and, at
    instant 100, one expired and two unexpired timers for "otherbot". *)
Definition quiet_world : @world seconds_clock :=
  {| recent_bot_challenges := ∅; error_log := [] |}.

Definition busy_world : @world seconds_clock :=
  {| recent_bot_challenges :=
       {[ KStr "otherbot" := [ Timer_new 0%Q 30%Q; Timer_new 80%Q 30%Q;
                               Timer_new 90%Q 60%Q ] ]};
     error_log := [] |}.

(** A game payload without a clock; the local account plays white. *)
Definition game_info : gmap string pyval :=
  {[ "id" := PStr "game0001";
     "speed" := PStr "correspondence";
     "variant" := PDict {[ "name" := PStr "Standard" ]};
     "white" := PDict {[ "name" := PStr "MyBot"; "rating" := PInt 1500 ]};
     "black" := PDict {[ "name" := PStr "alice"; "rating" := PInt 1600 ]};
     "state" := PDict {[ "moves" := PList [PStr "e2e4"; PStr "e7e5"] ]} ]}.

(** The same payload with a clock of five minutes and three seconds. *)
Definition clock_game_info : gmap string pyval :=
  <["clock" := PDict {[ "initial" := PInt 300000; "increment" := PInt 3000 ]}]>
    game_info.

(** The game made of [game_info] at instant 0 on the empty heap, with an
    abort delay of 20 seconds, and its two players. *)
Definition white_player : Player.t := {|
  Player.name := PStr "MyBot"; Player.title := PNone; Player.rating := PInt 1500;
  Player.provisional := PNone; Player.aiLevel := PNone
|}.

Definition black_player : Player.t := {|
  Player.name := PStr "alice"; Player.title := PNone; Player.rating := PInt 1600;
  Player.provisional := PNone; Player.aiLevel := PNone
|}.

Definition game_with (state_ : pyval) : @Game.t seconds_clock := {|
  Game.username := "mybot";
  Game.id := PStr "game0001";
  Game.speed := PStr "correspondence";
  Game.clock_initial := PInt 315360000000;
  Game.clock_increment := PInt 0;
  Game.perf_name := PStr "{perf?}";
  Game.variant_name := PStr "Standard";
  Game.white := 0%nat;
  Game.black := 1%nat;
  Game.initial_fen := PNone;
  Game.state := state_;
  Game.is_white := true;
  Game.my_color := "white";
  Game.opponent_color := "black";
  Game.me := 0%nat;
  Game.opponent := 1%nat;
  Game.base_url := "https://lichess.org/";
  Game.abort_time := Timer_new 0%Q (inject_Z 20);
  Game.terminate_time := Timer_new 0%Q ((315360000000 # 1000) + inject_Z 20 + 60)%Q;
  Game.disconnect_time := Timer_new 0%Q 0%Q
|}.

Definition game : @Game.t seconds_clock :=
  game_with (PDict {[ "moves" := PList [PStr "e2e4"; PStr "e7e5"] ]}).

(** The same game once six moves are played. *)
Definition late_game : @Game.t seconds_clock :=
  game_with (PDict {[ "moves" := PList [PStr "e2e4"; PStr "e7e5"; PStr "g1f3";
                                        PStr "b8c6"; PStr "f1b5"; PStr "a7a6"] ]}).

(** A rated challenge from a titled human, and a challenge that names no
    challenger. *)
Definition titled_info : gmap string pyval :=
  {[ "id" := PStr "gm0001";
     "rated" := PBool true;
     "variant" := PDict {[ "key" := PStr "standard" ]};
     "perf" := PDict {[ "name" := PStr "Blitz" ]};
     "speed" := PStr "blitz";
     "timeControl" := PDict {[ "limit" := PInt 300; "increment" := PInt 0 ]};
     "challenger" := PDict {[ "name" := PStr "carol"; "title" := PStr "GM";
                              "rating" := PInt 1500 ]} ]}.

Definition titled_challenge : Challenge.t := {|
  Challenge.id := PStr "gm0001";
  Challenge.rated := PBool true;
  Challenge.variant := PStr "standard";
  Challenge.perf_name := PStr "Blitz";
  Challenge.speed := PStr "blitz";
  Challenge.increment := PInt 0;
  Challenge.base := PInt 300;
  Challenge.days := PNone;
  Challenge.challenger := PDict {[ "name" := PStr "carol"; "title" := PStr "GM";
                                   "rating" := PInt 1500 ]};
  Challenge.challenger_title := PStr "GM";
  Challenge.challenger_is_bot := false;
  Challenge.challenger_master_title := PStr "GM";
  Challenge.challenger_name := PStr "carol";
  Challenge.challenger_rating_int := PInt 1500;
  Challenge.challenger_rating := PInt 1500;
  Challenge.from_self := false
|}.

Definition anonymous_info : gmap string pyval :=
  {[ "id" := PStr "anon01";
     "rated" := PBool false;
     "variant" := PDict {[ "key" := PStr "standard" ]};
     "perf" := PDict {[ "name" := PStr "Correspondence" ]};
     "speed" := PStr "correspondence";
     "timeControl" := PDict {[ "daysPerTurn" := PInt 3 ]} ]}.

Definition anonymous_challenge : Challenge.t := {|
  Challenge.id := PStr "anon01";
  Challenge.rated := PBool false;
  Challenge.variant := PStr "standard";
  Challenge.perf_name := PStr "Correspondence";
  Challenge.speed := PStr "correspondence";
  Challenge.increment := PNone;
  Challenge.base := PNone;
  Challenge.days := PInt 3;
  Challenge.challenger := PDict ∅;
  Challenge.challenger_title := PNone;
  Challenge.challenger_is_bot := false;
  Challenge.challenger_master_title := PNone;
  Challenge.challenger_name := PStr "Anonymous";
  Challenge.challenger_rating_int := PInt 0;
  Challenge.challenger_rating := PStr "?";
  Challenge.from_self := false
|}.

End Samples.

(** * Properties *)

(** Case analysis on the steps of a computation that returned. *)
Ltac invert_binds H :=
  repeat (match type of H with
          | context [mbind _ ?m] => destruct m eqn:?
          end; cbn [mbind result_bind] in H; try discriminate H).

(** ** The Python operations *)

Lemma py_in_list_allowed (v : pyval) (l : list string) :
  py_in_list v l = true ↔ allowed v l.
Proof.
  unfold py_in_list, allowed. rewrite existsb_exists. split.
  - intros (s & Hin & Heq). destruct v; simpl in Heq; try discriminate.
    apply bool_decide_eq_true in Heq. subst s.
    eexists. split; [reflexivity|]. by apply list_elem_of_In.
  - intros (s & -> & Hin). exists s. split; [by apply list_elem_of_In|].
    simpl. by apply bool_decide_eq_true.
Qed.

Lemma py_in_list_not_allowed (v : pyval) (l : list string) :
  py_in_list v l = false ↔ ¬ allowed v l.
Proof.
  rewrite <- py_in_list_allowed. destruct (py_in_list v l); split; congruence.
Qed.

Lemma num_leb_le (a b : num) : num_leb a b = true ↔ num_le a b.
Proof.
  destruct a, b; simpl; try tauto.
  - apply Z.leb_le.
  - split; [discriminate | tauto].
Qed.

Lemma py_between_within (lo hi : num) (v : pyval) :
  py_between lo v hi = Ok true ↔ within lo hi v.
Proof.
  unfold py_between, within, num_le_py, py_le_num, mbind, result_bind.
  destruct (py_as_int v) as [z|] eqn:Hv.
  - destruct (num_leb lo (Fin z)) eqn:Hlo.
    + split.
      * intros [= Hhi]. exists z. split; [done|]. by rewrite <- !num_leb_le.
      * intros (z' & [= <-] & _ & Hhi). f_equal. by apply num_leb_le.
    + split; [discriminate|].
      intros (z' & [= <-] & Hlo' & _). apply num_leb_le in Hlo'. congruence.
  - split; [discriminate|]. intros (z & [=] & _).
Qed.

Lemma py_is_not_none_true (v : pyval) : py_is_not_none v = true ↔ v ≠ PNone.
Proof. destruct v; simpl; split; congruence. Qed.

Lemma py_is_not_none_false (v : pyval) : py_is_not_none v = false ↔ v = PNone.
Proof. destruct v; simpl; split; congruence. Qed.

(** ** Time control *)

Lemma time_control_speed_refused (c : Challenge.t) (cfg : Configuration) :
  py_in_list (Challenge.speed c) (time_controls cfg) = false →
  Challenge.is_supported_time_control c cfg = Ok false.
Proof. intros Hs. unfold Challenge.is_supported_time_control. by rewrite Hs. Qed.

Lemma time_control_clock (c : Challenge.t) (cfg : Configuration) :
  py_in_list (Challenge.speed c) (time_controls cfg) = true →
  Challenge.base c ≠ PNone → Challenge.increment c ≠ PNone →
  Challenge.is_supported_time_control c cfg =
    (inc_ok ← py_between (min_increment cfg) (Challenge.increment c) (max_increment cfg);
     if inc_ok : bool
     then py_between (min_base cfg) (Challenge.base c) (max_base cfg)
     else Ok false).
Proof.
  intros Hs Hb Hi. unfold Challenge.is_supported_time_control. rewrite Hs. simpl.
  apply py_is_not_none_true in Hb, Hi. by rewrite Hb, Hi.
Qed.

Lemma time_control_not_clock (c : Challenge.t) (cfg : Configuration) :
  py_in_list (Challenge.speed c) (time_controls cfg) = true →
  Challenge.base c = PNone ∨ Challenge.increment c = PNone →
  Challenge.is_supported_time_control c cfg =
    if py_is_not_none (Challenge.days c)
    then py_between (min_days cfg) (Challenge.days c) (max_days cfg)
    else Ok (num_is_inf (max_days cfg)).
Proof.
  intros Hs Hbi. unfold Challenge.is_supported_time_control. rewrite Hs. simpl.
  assert (py_is_not_none (Challenge.base c) && py_is_not_none (Challenge.increment c)
          = false) as ->; [|done].
  apply andb_false_iff. destruct Hbi as [Hb|Hi]; [left|right];
    by apply py_is_not_none_false.
Qed.

(** C2.  A challenge whose speed is not among the allowed speeds is refused
    whatever its other fields are.  When the speed is allowed: a normal
    clock game (base and increment both present) is supported iff increment
    and base each lie within their inclusive ranges; otherwise a
    correspondence game (days per turn present) is supported iff the days
    per turn lie within their inclusive range; otherwise the game is
    unlimited and is supported iff the configured maximum of days is
    infinity. *)
Theorem is_supported_time_control_spec (c : Challenge.t) (cfg : Configuration) :
  (¬ allowed (Challenge.speed c) (time_controls cfg) →
     Challenge.is_supported_time_control c cfg = Ok false)
  ∧ (allowed (Challenge.speed c) (time_controls cfg) →
     (Challenge.base c ≠ PNone → Challenge.increment c ≠ PNone →
        (Challenge.is_supported_time_control c cfg = Ok true ↔
           within (min_increment cfg) (max_increment cfg) (Challenge.increment c)
           ∧ within (min_base cfg) (max_base cfg) (Challenge.base c)))
     ∧ (Challenge.base c = PNone ∨ Challenge.increment c = PNone →
        Challenge.days c ≠ PNone →
        (Challenge.is_supported_time_control c cfg = Ok true ↔
           within (min_days cfg) (max_days cfg) (Challenge.days c)))
     ∧ (Challenge.base c = PNone ∨ Challenge.increment c = PNone →
        Challenge.days c = PNone →
        (Challenge.is_supported_time_control c cfg = Ok true ↔
           max_days cfg = Inf))).
Proof.
  split.
  - intros Hs. apply time_control_speed_refused. by apply py_in_list_not_allowed.
  - intros Hs%py_in_list_allowed. split; [|split].
    + intros Hb Hi. rewrite time_control_clock by done.
      rewrite <- !py_between_within. unfold mbind, result_bind.
      destruct (py_between (min_increment cfg) _ _) as [[]|].
      * tauto.
      * split; [discriminate | intros [? _]; discriminate].
      * split; [discriminate | intros [? _]; discriminate].
    + intros Hbi Hd%py_is_not_none_true. rewrite time_control_not_clock by done.
      rewrite Hd. apply py_between_within.
    + intros Hbi Hd%py_is_not_none_false. rewrite time_control_not_clock by done.
      rewrite Hd. destruct (max_days cfg); simpl; split; congruence.
Qed.

(** ** Construction of a challenge *)

Lemma Challenge_init_fields (c_info : gmap string pyval) (profile : UserProfile)
    (c : Challenge.t) :
  Challenge.init c_info profile = Ok c →
  c_info !! "speed" = Some (Challenge.speed c)
  ∧ Challenge.time_control_get c_info "increment" = Ok (Challenge.increment c)
  ∧ Challenge.time_control_get c_info "limit" = Ok (Challenge.base c)
  ∧ Challenge.time_control_get c_info "daysPerTurn" = Ok (Challenge.days c)
  ∧ Challenge.from_self c
    = py_eq_str (Challenge.challenger_name c) (profile_username profile).
Proof.
  intros Hinit. unfold Challenge.init in Hinit. invert_binds Hinit.
  injection Hinit as <-. simpl. repeat split; try done.
  unfold dict_getitem in *. by destruct (c_info !! "speed"); simplify_eq.
Qed.

(** C9.  When the payload carries no days per turn and lacks the base time
    or the increment, the time-control check takes the unlimited branch:
    its result is fixed by the speed and by whether the configured maximum
    of days is infinity; the base time or increment that is present is not
    compared with any bound. *)
Theorem lone_clock_field_is_unlimited (c_info : gmap string pyval)
    (profile : UserProfile) (c : Challenge.t) (cfg : Configuration) :
  Challenge.init c_info profile = Ok c →
  Challenge.time_control_get c_info "daysPerTurn" = Ok PNone →
  Challenge.time_control_get c_info "limit" = Ok PNone
  ∨ Challenge.time_control_get c_info "increment" = Ok PNone →
  Challenge.is_supported_time_control c cfg
  = Ok (py_in_list (Challenge.speed c) (time_controls cfg) && num_is_inf (max_days cfg))
  ∧ (allowed (Challenge.speed c) (time_controls cfg) →
     (Challenge.is_supported_time_control c cfg = Ok true ↔ max_days cfg = Inf)).
Proof.
  intros (_ & Hi & Hb & Hd & _)%Challenge_init_fields Hdays Hlone.
  assert (Challenge.days c = PNone) as Hd' by congruence.
  assert (Challenge.base c = PNone ∨ Challenge.increment c = PNone) as Hbi.
  { destruct Hlone; [left|right]; congruence. }
  assert (Challenge.is_supported_time_control c cfg
          = Ok (py_in_list (Challenge.speed c) (time_controls cfg)
                && num_is_inf (max_days cfg))) as Heq.
  { destruct (py_in_list (Challenge.speed c) (time_controls cfg)) eqn:Hs.
    - rewrite time_control_not_clock by done. by rewrite Hd'.
    - by rewrite time_control_speed_refused. }
  split; [done|].
  intros Hs%py_in_list_allowed. rewrite Heq, Hs. simpl.
  destruct (max_days cfg); simpl; split; congruence.
Qed.

(** ** The acceptance policy *)

Section PolicyProperties.
Context `{clock : Clock}.

Lemma is_supported_from_self (now : instant) (c : Challenge.t) (cfg : Configuration)
    (w : world) :
  Challenge.from_self c = true →
  Challenge.is_supported now c cfg w = (Ok (true, None), w).
Proof.
  intros Hself. unfold Challenge.is_supported, try_except, Challenge.is_supported_body.
  by rewrite Hself.
Qed.

(** C8.  A challenge whose challenger name is the username of the local
    account is supported, with no reason, whatever its other fields and the
    configuration are; the world is left as it was. *)
Theorem is_supported_self_challenge (now : instant) (c_info : gmap string pyval)
    (profile : UserProfile) (c : Challenge.t) (cfg : Configuration) (w : world) :
  Challenge.init c_info profile = Ok c →
  Challenge.challenger_name c = PStr (profile_username profile) →
  Challenge.is_supported now c cfg w = (Ok (true, None), w).
Proof.
  intros (_ & _ & _ & _ & Hself)%Challenge_init_fields Hname.
  apply is_supported_from_self. rewrite Hself, Hname. simpl.
  by apply bool_decide_eq_true.
Qed.

(** C4.  The rate-limit check replaces the entry of the challenger's name
    by its unexpired timers, touches nothing else, and then passes iff the
    challenger is not a bot, or no limit is configured, or fewer unexpired
    timers than the limit are left. *)
Theorem is_supported_recent_spec (now : instant) (c : Challenge.t)
    (cfg : Configuration) (w : world) (k : pykey) :
  py_key (Challenge.challenger_name c) = Ok k →
  let kept := List.filter (λ timer, negb (is_expired now timer))
                          (default [] (recent_bot_challenges w !! k)) in
  ∃ (passed : bool) (w' : world),
    Challenge.is_supported_recent now c cfg w = (Ok passed, w')
    ∧ recent_bot_challenges w' !! k = Some kept
    ∧ (∀ k', k' ≠ k → recent_bot_challenges w' !! k' = recent_bot_challenges w !! k')
    ∧ error_log w' = error_log w
    ∧ (passed = true ↔
         Challenge.challenger_is_bot c = false
         ∨ max_recent_bot_challenges cfg = None
         ∨ ∃ limit, max_recent_bot_challenges cfg = Some limit
                    ∧ (Z.of_nat (length kept) < limit)%Z).
Proof.
  intros Hk kept. unfold Challenge.is_supported_recent. rewrite Hk.
  eexists _, _. split; [reflexivity|]. cbn [recent_bot_challenges error_log].
  split; [by rewrite lookup_insert_eq|].
  split; [by intros k' Hne; rewrite lookup_insert_ne|].
  split; [done|].
  rewrite lookup_insert_eq. cbn [default]. fold kept.
  rewrite orb_true_iff, negb_true_iff.
  destruct (max_recent_bot_challenges cfg) as [limit|].
  - rewrite Z.ltb_lt. split.
    + intros [?|?]; [by left | right; right; eauto].
    + intros [?|[?|(l & [= <-] & ?)]]; [by left | done | by right].
  - split; [by right; left | by right].
Qed.

(** A loop over named checks stops at the first one that fails. *)
Lemma first_failure_stops (passing : list (M bool * string)) (check : M bool)
    (reason : string) (rest : list (M bool * string)) (w : world) :
  Forall (λ entry, ∀ w0, entry.1 w0 = (Ok true, w0)) passing →
  check w = (Ok false, w) →
  first_failure (passing ++ (check, reason) :: rest) w = (Ok (Some reason), w).
Proof.
  intros Hpass Hfail. induction Hpass as [|[chk r] l Hchk _ IH]; simpl.
  - unfold mbind, M_bind. by rewrite Hfail.
  - unfold mbind, M_bind in *. simpl in Hchk. by rewrite Hchk.
Qed.

Lemma is_supported_decision (now : instant) (c : Challenge.t) (cfg : Configuration)
    (w : world) :
  Challenge.from_self c = false →
  Challenge.is_supported now c cfg w = policy_decision now c cfg w.
Proof.
  intros Hself.
  unfold Challenge.is_supported, try_except, Challenge.is_supported_body,
    policy_decision, policy_checks, first_failure, Challenge.or_else,
    Challenge.decline_due_to, log_exception, lift, mbind, M_bind, mret, M_ret.
  rewrite Hself.
  destruct (accept_bot cfg || negb (Challenge.challenger_is_bot c)); [|done].
  destruct (negb (only_bot cfg) || Challenge.challenger_is_bot c); [|done].
  cbn [Challenge.reason_truthy].
  destruct (Challenge.is_supported_time_control c cfg) as [[]|]; [|done..].
  destruct (Challenge.is_supported_variant c cfg); [|done].
  cbn [Challenge.reason_truthy].
  destruct (Challenge.is_supported_mode c cfg);
    [|by destruct (py_truthy (Challenge.rated c))].
  destruct (negb (py_in_list (Challenge.challenger_name c) (block_list cfg))); [|done].
  cbn [Challenge.reason_truthy].
  by destruct (Challenge.is_supported_recent now c cfg w) as [[[]|] w'].
Qed.

(** C1.  For a challenge that is not from the local account, the decision
    is the one of the checks taken in the order bot acceptance ("noBot"),
    only-bot ("onlyBot"), time control ("timeControl"), variant
    ("variant"), mode ("casual" for a rated challenge, "rated" for a casual
    one), block list ("generic"), rate limit ("later"): the reason of the
    first check that fails.  In particular a challenge that fails the bot
    policy is declined with "noBot" (a bot, when bots are not accepted) or
    "onlyBot" (not a bot, when only bots are accepted), also when its
    variant is not supported. *)
Theorem is_supported_first_failure (now : instant) (c : Challenge.t)
    (cfg : Configuration) (w : world) :
  Challenge.from_self c = false →
  Challenge.is_supported now c cfg w = policy_decision now c cfg w
  ∧ (accept_bot cfg = false → Challenge.challenger_is_bot c = true →
     Challenge.is_supported_variant c cfg = false →
     Challenge.is_supported now c cfg w = (Ok (false, Some "noBot"), w))
  ∧ (only_bot cfg = true → Challenge.challenger_is_bot c = false →
     Challenge.is_supported_variant c cfg = false →
     Challenge.is_supported now c cfg w = (Ok (false, Some "onlyBot"), w)).
Proof.
  intros Hself. split; [by apply is_supported_decision|].
  rewrite is_supported_decision by done. unfold policy_decision. split.
  - intros Hacc Hbot _.
    assert (first_failure (policy_checks now c cfg) w = (Ok (Some "noBot"), w))
      as ->; [|done].
    unfold policy_checks. apply (first_failure_stops []); [constructor|].
    unfold mret, M_ret. by rewrite Hacc, Hbot.
  - intros Honly Hbot _.
    assert (first_failure (policy_checks now c cfg) w = (Ok (Some "onlyBot"), w))
      as ->; [|done].
    unfold policy_checks. apply (first_failure_stops [_]).
    + constructor; [|constructor]. intros w0. unfold mret, M_ret. simpl.
      by rewrite Hbot, orb_true_r.
    + unfold mret, M_ret. by rewrite Honly, Hbot.
Qed.

(** C3.  A call of [is_supported] returns; when the evaluation of the
    policy raises, the exception is caught and logged, and the call returns
    a decline with the reason "generic". *)
Theorem is_supported_never_raises (now : instant) (c : Challenge.t)
    (cfg : Configuration) (w : world) :
  (∃ (decision : bool * option string) (w' : world),
     Challenge.is_supported now c cfg w = (Ok decision, w'))
  ∧ (∀ (e : exn) (w0 : world),
       Challenge.is_supported_body now c cfg w = (Raise e, w0) →
       Challenge.is_supported now c cfg w
       = (Ok (false, Some "generic"),
          {| recent_bot_challenges := recent_bot_challenges w0;
             error_log := (error_log w0 ++ [Challenge.id c])%list |})).
Proof.
  unfold Challenge.is_supported, try_except. split.
  - destruct (Challenge.is_supported_body now c cfg w) as [[decision|e] w0].
    + by exists decision, w0.
    + by eexists _, _.
  - by intros e w0 ->.
Qed.

End PolicyProperties.

(** ** Games *)

Section GameProperties.
Context `{clock : Clock}.

Lemma is_abortable_moves (g : Game.t) :
  Game.is_abortable g = (n ← moves_played g; Ok (Z.ltb n 6)).
Proof.
  unfold Game.is_abortable, moves_played, mbind, result_bind.
  by destruct (py_getitem (Game.state g) "moves").
Qed.

(** C6.  On a game whose abortability is [abortable], [ping] arms the
    terminate timer and the disconnect timer with the delays it is given,
    arms the abort timer when the game is abortable and leaves it alone
    when it is not, and changes no other field. *)
Theorem ping_rearms_timers (now : instant) (g : Game.t)
    (abort_in terminate_in disconnect_in : Q) (abortable : bool) :
  Game.is_abortable g = Ok abortable →
  ∃ g', Game.ping now g abort_in terminate_in disconnect_in = Ok g'
    ∧ Game.terminate_time g' = Timer_new now terminate_in
    ∧ Game.disconnect_time g' = Timer_new now disconnect_in
    ∧ Game.abort_time g'
      = (if abortable then Timer_new now abort_in else Game.abort_time g)
    ∧ same_but_timers g g'.
Proof.
  intros Hab. unfold Game.ping. rewrite Hab. cbn [mbind result_bind].
  eexists. split; [reflexivity|].
  by destruct abortable; repeat split.
Qed.

(** C7.  Once the state records six moves or more, [should_abort_now] is
    false whether the abort timer is expired or not; with fewer than six
    moves it is true iff the abort timer is expired. *)
Theorem should_abort_now_spec (now : instant) (g : Game.t) (n : Z) :
  moves_played g = Ok n →
  ((6 ≤ n)%Z → Game.should_abort_now now g = Ok false)
  ∧ ((n < 6)%Z →
     Game.should_abort_now now g = Ok (is_expired now (Game.abort_time g))
     ∧ (Game.should_abort_now now g = Ok true ↔
        is_expired now (Game.abort_time g) = true)).
Proof.
  intros Hn. unfold Game.should_abort_now.
  rewrite is_abortable_moves, Hn. cbn [mbind result_bind]. split.
  - intros Hge. by apply Z.ltb_ge in Hge as ->.
  - intros Hlt. apply Z.ltb_lt in Hlt as ->. split; [done|].
    split; congruence.
Qed.

Lemma py_get_clock_field (json : gmap string pyval) (k : string) (dflt v : pyval) :
  py_get (py_or (dict_get json "clock") (PDict ∅)) k dflt = Ok v →
  v = default dflt (clock_field json k).
Proof.
  unfold dict_get, clock_field, py_or.
  destruct (json !! "clock") as [[| | | | |d]|] eqn:Hc; simpl;
    try (by rewrite lookup_empty; intros [= <-]);
    try (case_match; simpl; intros; simplify_eq; by rewrite ?lookup_empty).
  destruct (size d) eqn:Hsize; simpl.
  - apply map_size_empty_iff in Hsize as ->. by intros [= <-].
  - by intros [= <-].
Qed.

Lemma py_get_object_or_nothing (v : pyval) (k : string) (dflt : pyval) :
  object_or_nothing v → ∃ x, py_get (py_or v (PDict ∅)) k dflt = Ok x.
Proof.
  unfold py_or. intros [->|[d ->]]; simpl; [eauto|].
  destruct (negb _); simpl; eauto.
Qed.

Lemma py_lower_name_or_empty (v : pyval) (s : string) :
  py_lower (py_or v (PStr "")) = Ok s → s = lower (name_or_empty v).
Proof.
  unfold py_or. destruct v as [| | |[|a r]| |]; simpl;
    try (by intros [= <-]);
    try (case_match; simpl; intros; by simplify_eq).
Qed.

Lemma Game_init_inv (now : instant) (json : gmap string pyval) (u b : string)
    (a : Z) (h : heap) (g : Game.t) (h' : heap) :
  Game.init now json u b a h = Ok (g, h') →
  ∃ pw pb wn,
    py_get (py_or (dict_get json "clock") (PDict ∅)) "initial"
           (PInt Game.ten_years_in_ms) = Ok (Game.clock_initial g)
    ∧ py_get (py_or (dict_get json "clock") (PDict ∅)) "increment" (PInt 0)
      = Ok (Game.clock_increment g)
    ∧ Player.init (dict_get json "white") = Ok pw
    ∧ Player.init (dict_get json "black") = Ok pb
    ∧ h' = (h ++ [pw; pb])%list
    ∧ Game.white g = length h
    ∧ Game.black g = S (length h)
    ∧ py_lower (py_or (Player.name pw) (PStr "")) = Ok wn
    ∧ Game.is_white g = bool_decide (wn = lower u)
    ∧ Game.my_color g = (if Game.is_white g then "white" else "black")
    ∧ Game.opponent_color g = (if Game.is_white g then "black" else "white")
    ∧ Game.me g = (if Game.is_white g then Game.white g else Game.black g)
    ∧ Game.opponent g = (if Game.is_white g then Game.black g else Game.white g).
Proof.
  intros Hinit. unfold Game.init, alloc in Hinit. invert_binds Hinit.
  injection Hinit as <- <-. cbn.
  eexists _, _, _. repeat split; try done.
  - by rewrite <- app_assoc.
  - rewrite length_app. simpl. lia.
Qed.

Lemma Game_init_succeeds (now : instant) (json : gmap string pyval) (u b : string)
    (a : Z) (h : heap) :
  (Z.abs a < float_overflow)%Z → game_payload_ok json →
  ∃ g h', Game.init now json u b a h = Ok (g, h').
Proof.
  intros Ha%Z.ltb_lt [Hclock Hperf (dv & n & Hv & Hn) (dw & Hw & Hname) [db Hb]
                       (zi & zc & Hini & Hinc & Hsum%Z.ltb_lt)].
  unfold Game.init.
  destruct (py_get_object_or_nothing _ "initial" (PInt Game.ten_years_in_ms) Hclock)
    as [ci Hci].
  destruct (py_get_object_or_nothing _ "increment" (PInt 0) Hclock) as [cc Hcc].
  destruct (py_get_object_or_nothing _ "name" (PStr "{perf?}") Hperf) as [pn Hpn].
  rewrite Hci, Hcc, Hpn. cbn [mbind result_bind].
  apply py_get_clock_field in Hci as ->. apply py_get_clock_field in Hcc as ->.
  unfold dict_get in Hb, Hname |- *. rewrite Hv, Hw, Hb.
  cbn [default from_option id py_getitem]. unfold dict_getitem. rewrite Hn.
  cbn [mbind result_bind Player.init py_get alloc Player.name].
  assert (∃ s, py_lower (py_or (default PNone (dw !! "name")) (PStr "")) = Ok s)
    as [wn ->].
  { unfold py_or. destruct Hname as [->|[s ->]]; simpl; [eauto|].
    destruct (negb _); simpl; eauto. }
  cbn [mbind result_bind]. unfold py_add. rewrite Hini, Hinc.
  cbn [mbind result_bind py_truediv py_as_int]. rewrite Hsum.
  unfold float_add_int. rewrite Ha. cbn [mbind result_bind]. eauto.
Qed.

(** C5, as the code has it.  A game is constructed from every payload of
    the shape the server sends, for an abort delay a float can hold.  In
    the constructed game the clock initial
    is the one the payload carries, and ten years in milliseconds when the
    payload has no clock object or its clock object lacks the field; the
    clock increment is the one the payload carries, and zero when it
    carries none. *)
Theorem Game_init_clock (now : instant) (json : gmap string pyval) (u b : string)
    (a : Z) (h : heap) :
  ((Z.abs a < float_overflow)%Z → game_payload_ok json →
   ∃ g h', Game.init now json u b a h = Ok (g, h'))
  ∧ (∀ g h', Game.init now json u b a h = Ok (g, h') →
       Game.clock_initial g
       = default (PInt (10 * 365 * 24 * 3600 * 1000)) (clock_field json "initial")
       ∧ Game.clock_increment g
         = default (PInt 0) (clock_field json "increment")).
Proof.
  split; [apply Game_init_succeeds|].
  intros g h' (pw & pb & wn & Hci & Hcc & _)%Game_init_inv.
  apply py_get_clock_field in Hci, Hcc. by rewrite Hci, Hcc.
Qed.

(** C10.  The constructed game holds two distinct player objects.  It is
    white iff the name of the white player, taken as the empty string when
    there is none, equals the username once both are in lower case; the
    colours follow [is_white], [me] is the white player iff the game is
    white and the black player otherwise, and [opponent] is the other one. *)
Theorem Game_init_sides (now : instant) (json : gmap string pyval) (u b : string)
    (a : Z) (h : heap) (g : Game.t) (h' : heap) :
  Game.init now json u b a h = Ok (g, h') →
  ∃ pw pb : Player.t,
    Player.init (dict_get json "white") = Ok pw
    ∧ Player.init (dict_get json "black") = Ok pb
    ∧ h' !! Game.white g = Some pw
    ∧ h' !! Game.black g = Some pb
    ∧ Game.white g ≠ Game.black g
    ∧ Game.is_white g
      = bool_decide (lower (name_or_empty (Player.name pw)) = lower u)
    ∧ Game.my_color g = (if Game.is_white g then "white" else "black")
    ∧ Game.opponent_color g = (if Game.is_white g then "black" else "white")
    ∧ (Game.me g = Game.white g ↔ Game.is_white g = true)
    ∧ (Game.me g = Game.black g ↔ Game.is_white g = false)
    ∧ (Game.opponent g = Game.black g ↔ Game.is_white g = true)
    ∧ (Game.opponent g = Game.white g ↔ Game.is_white g = false).
Proof.
  intros (pw & pb & wn & _ & _ & Hpw & Hpb & -> & Hwhite & Hblack & Hwn & Hisw
          & Hmy & Hopp & Hme & Hop)%Game_init_inv.
  apply py_lower_name_or_empty in Hwn as ->.
  exists pw, pb. rewrite Hme, Hop, Hwhite, Hblack.
  split; [done|]. split; [done|].
  split; [by rewrite lookup_app_r, Nat.sub_diag|].
  split; [by rewrite lookup_app_r by lia; replace (S (length h) - length h)%nat
             with 1%nat by lia|].
  split; [lia|]. split; [done|]. split; [done|]. split; [done|].
  destruct (Game.is_white g); repeat split; intros; try done; lia.
Qed.

End GameProperties.

(** * Further properties of the code *)

(** ** The decision of the policy *)

Section DecisionProperties.
Context `{clock : Clock}.

(** The decision, branch by branch. *)
Lemma is_supported_cases (now : instant) (c : Challenge.t) (cfg : Configuration)
    (w : world) :
  Challenge.is_supported now c cfg w =
  if Challenge.from_self c then (Ok (true, None), w)
  else if negb (accept_bot cfg || negb (Challenge.challenger_is_bot c))
  then (Ok (false, Some "noBot"), w)
  else if negb (negb (only_bot cfg) || Challenge.challenger_is_bot c)
  then (Ok (false, Some "onlyBot"), w)
  else match Challenge.is_supported_time_control c cfg with
  | Raise _ => (Ok (false, Some "generic"), logged c w)
  | Ok false => (Ok (false, Some "timeControl"), w)
  | Ok true =>
    if negb (Challenge.is_supported_variant c cfg)
    then (Ok (false, Some "variant"), w)
    else if negb (Challenge.is_supported_mode c cfg)
    then (Ok (false, Some (if py_truthy (Challenge.rated c)
                           then "casual" else "rated")), w)
    else if py_in_list (Challenge.challenger_name c) (block_list cfg)
    then (Ok (false, Some "generic"), w)
    else match Challenge.is_supported_recent now c cfg w with
    | (Raise _, w') => (Ok (false, Some "generic"), logged c w')
    | (Ok false, w') => (Ok (false, Some "later"), w')
    | (Ok true, w') => (Ok (true, None), w')
    end
  end.
Proof.
  unfold Challenge.is_supported, try_except, Challenge.is_supported_body,
    Challenge.or_else, Challenge.decline_due_to, log_exception, logged, lift,
    mbind, M_bind, mret, M_ret.
  destruct (Challenge.from_self c); [done|].
  destruct (accept_bot cfg || negb (Challenge.challenger_is_bot c)); [|done].
  destruct (negb (only_bot cfg) || Challenge.challenger_is_bot c); [|done].
  cbn [Challenge.reason_truthy negb].
  destruct (Challenge.is_supported_time_control c cfg) as [[]|]; [|done..].
  destruct (Challenge.is_supported_variant c cfg); [|done].
  cbn [Challenge.reason_truthy negb].
  destruct (Challenge.is_supported_mode c cfg);
    [|by destruct (py_truthy (Challenge.rated c))].
  destruct (py_in_list (Challenge.challenger_name c) (block_list cfg)); [done|].
  cbn [Challenge.reason_truthy negb].
  by destruct (Challenge.is_supported_recent now c cfg w) as [[[]|] w'].
Qed.

Lemma is_supported_recent_cases (now : instant) (c : Challenge.t)
    (cfg : Configuration) (w : world) :
  match py_key (Challenge.challenger_name c) with
  | Raise e => Challenge.is_supported_recent now c cfg w = (Raise e, w)
  | Ok k =>
    ∃ passed,
      Challenge.is_supported_recent now c cfg w
      = (Ok passed,
         {| recent_bot_challenges :=
              <[k := List.filter (λ timer, negb (is_expired now timer))
                       (default [] (recent_bot_challenges w !! k))]>
                (recent_bot_challenges w);
            error_log := error_log w |})
  end.
Proof.
  unfold Challenge.is_supported_recent.
  destruct (py_key (Challenge.challenger_name c)); [eauto | done].
Qed.

Local Ltac decided :=
  eexists _, _, _; (split; [reflexivity|]); (split; [split; congruence|]);
  intros lbl [= <-]; (split; [unfold decline_reasons; set_solver | congruence]).

(** X1.  Every call of [is_supported] yields a well-formed decision: it
    accepts iff it gives no reason; a reason is one of the eight labels;
    and a reason is never the mode the challenge itself has. *)
Theorem is_supported_decision_well_formed (now : instant) (c : Challenge.t)
    (cfg : Configuration) (w : world) :
  ∃ (accepted : bool) (reason : option string) (w' : world),
    Challenge.is_supported now c cfg w = (Ok (accepted, reason), w')
    ∧ (accepted = true ↔ reason = None)
    ∧ (∀ r, reason = Some r → r ∈ decline_reasons ∧ r ≠ Challenge.mode c).
Proof.
  rewrite is_supported_cases. unfold Challenge.mode.
  destruct (py_truthy (Challenge.rated c)) eqn:Hrated.
  all: destruct (Challenge.from_self c); [decided|].
  all: destruct (accept_bot cfg || negb (Challenge.challenger_is_bot c));
    cbn [negb]; [|decided].
  all: destruct (negb (only_bot cfg) || Challenge.challenger_is_bot c);
    cbn [negb]; [|decided].
  all: destruct (Challenge.is_supported_time_control c cfg) as [[]|];
    [|decided..].
  all: destruct (Challenge.is_supported_variant c cfg); cbn [negb]; [|decided].
  all: destruct (Challenge.is_supported_mode c cfg); cbn [negb]; [|decided].
  all: destruct (py_in_list (Challenge.challenger_name c) (block_list cfg));
    [decided|].
  all: destruct (Challenge.is_supported_recent now c cfg w) as [[[]|] w'];
    decided.
Qed.

Local Ltac refuted :=
  split; [discriminate|];
  intros [?|(Hacc & Honly & ? & ? & ? & ? & ?)]; [done|];
  try done; try (by destruct Hacc); by destruct Honly.

(** X2.  [is_supported] accepts exactly the challenges of the local account
    and the challenges that pass all seven checks. *)
Theorem is_supported_accepts_iff (now : instant) (c : Challenge.t)
    (cfg : Configuration) (w : world) :
  (Challenge.is_supported now c cfg w).1 = Ok (true, None) ↔
  Challenge.from_self c = true
  ∨ ((accept_bot cfg = true ∨ Challenge.challenger_is_bot c = false)
     ∧ (only_bot cfg = false ∨ Challenge.challenger_is_bot c = true)
     ∧ Challenge.is_supported_time_control c cfg = Ok true
     ∧ allowed (Challenge.variant c) (variants cfg)
     ∧ Challenge.mode c ∈ modes cfg
     ∧ ¬ allowed (Challenge.challenger_name c) (block_list cfg)
     ∧ (Challenge.is_supported_recent now c cfg w).1 = Ok true).
Proof.
  rewrite is_supported_cases.
  rewrite <- py_in_list_not_allowed.
  rewrite <- (py_in_list_allowed (Challenge.variant c)).
  assert (Challenge.mode c ∈ modes cfg ↔ Challenge.is_supported_mode c cfg = true)
    as ->.
  { unfold Challenge.is_supported_mode, Challenge.mode.
    rewrite py_in_list_allowed. unfold allowed. split.
    - eauto.
    - by intros (s & [= <-] & ?). }
  unfold Challenge.is_supported_variant.
  destruct (Challenge.from_self c); [by split; [left|]|].
  destruct (accept_bot cfg), (Challenge.challenger_is_bot c), (only_bot cfg);
    cbn [orb negb]; try by refuted.
  all: destruct (Challenge.is_supported_time_control c cfg) as [[]|];
    try by refuted.
  all: destruct (py_in_list (Challenge.variant c) (variants cfg)); cbn [negb];
    try by refuted.
  all: destruct (Challenge.is_supported_mode c cfg); cbn [negb]; try by refuted.
  all: destruct (py_in_list (Challenge.challenger_name c) (block_list cfg));
    try by refuted.
  all: destruct (Challenge.is_supported_recent now c cfg w) as [[[]|] w'];
    try by refuted.
  all: split; [intros _; right; repeat split; auto | done].
Qed.

Local Ltac not_among H :=
  exfalso; repeat (apply elem_of_cons in H as [H|H]; [discriminate H|]);
  by apply elem_of_nil in H.

(** X3.  What [is_supported] does to the world: an entry of the mapping
    is left as it was or, for the challenger's name only, replaced by its
    unexpired timers; at most one error is logged, with the id of the
    challenge; and nothing at all changes for a challenge of the local
    account or a decline by one of the checks before the block list. *)
Theorem is_supported_frame (now : instant) (c : Challenge.t)
    (cfg : Configuration) (w : world) :
  let w' := (Challenge.is_supported now c cfg w).2 in
  (∀ k, recent_bot_challenges w' !! k = recent_bot_challenges w !! k
        ∨ (py_key (Challenge.challenger_name c) = Ok k
           ∧ recent_bot_challenges w' !! k
             = Some (List.filter (λ timer, negb (is_expired now timer))
                       (default [] (recent_bot_challenges w !! k)))))
  ∧ (error_log w' = error_log w
     ∨ error_log w' = (error_log w ++ [Challenge.id c])%list)
  ∧ (Challenge.from_self c = true → w' = w)
  ∧ (∀ r, (Challenge.is_supported now c cfg w).1 = Ok (false, Some r) →
          r ∈ ["noBot"; "onlyBot"; "timeControl"; "variant"; "casual"; "rated"] →
          w' = w).
Proof.
  intros w'. subst w'. rewrite is_supported_cases.
  assert (∀ (x : result (bool * option string))
            (w1 : world),
            (w1 = w ∨ w1 = logged c w
             ∨ ∃ k kept,
                 py_key (Challenge.challenger_name c) = Ok k
                 ∧ kept = List.filter (λ timer, negb (is_expired now timer))
                            (default [] (recent_bot_challenges w !! k))
                 ∧ (w1 = {| recent_bot_challenges :=
                              <[k := kept]> (recent_bot_challenges w);
                            error_log := error_log w |}
                    ∨ w1 = logged c
                             {| recent_bot_challenges :=
                                  <[k := kept]> (recent_bot_challenges w);
                                error_log := error_log w |})) →
            (∀ k, recent_bot_challenges (x, w1).2 !! k
                  = recent_bot_challenges w !! k
                  ∨ (py_key (Challenge.challenger_name c) = Ok k
                     ∧ recent_bot_challenges (x, w1).2 !! k
                       = Some (List.filter (λ timer, negb (is_expired now timer))
                                 (default [] (recent_bot_challenges w !! k)))))
            ∧ (error_log (x, w1).2 = error_log w
               ∨ error_log (x, w1).2 = (error_log w ++ [Challenge.id c])%list))
    as Hshape.
  { intros x w1 [->|[->|(k & kept & Hk & -> & [->| ->])]]; simpl.
    - split; [by left | by left].
    - split; [by left | by right].
    - split; [|by left]. intros k'. destruct (decide (k = k')) as [<-|Hne].
      + right. by rewrite lookup_insert_eq.
      + left. by rewrite lookup_insert_ne.
    - split; [|by right]. intros k'. destruct (decide (k = k')) as [<-|Hne].
      + right. by rewrite lookup_insert_eq.
      + left. by rewrite lookup_insert_ne. }
  pose proof (is_supported_recent_cases now c cfg w) as Hrecent.
  destruct (Challenge.from_self c).
  { split; [by left|]. split; [by left|]. done. }
  destruct (accept_bot cfg || negb (Challenge.challenger_is_bot c)); cbn [negb].
  2: { split; [by left|]. split; [by left|]. done. }
  destruct (negb (only_bot cfg) || Challenge.challenger_is_bot c); cbn [negb].
  2: { split; [by left|]. split; [by left|]. done. }
  destruct (Challenge.is_supported_time_control c cfg) as [[]|].
  2: { split; [by left|]. split; [by left|]. done. }
  2: { destruct (Hshape (Ok (false, Some "generic")) (logged c w)) as [? ?];
         [by right; left|].
       split; [done|]. split; [done|]. split; [done|].
       intros r [= <-] Hin. by not_among Hin. }
  destruct (Challenge.is_supported_variant c cfg); cbn [negb].
  2: { split; [by left|]. split; [by left|]. done. }
  destruct (Challenge.is_supported_mode c cfg); cbn [negb].
  2: { split; [by left|]. split; [by left|]. done. }
  destruct (py_in_list (Challenge.challenger_name c) (block_list cfg)).
  { split; [by left|]. split; [by left|]. done. }
  destruct (py_key (Challenge.challenger_name c)) as [k|e] eqn:Hk.
  - destruct Hrecent as [passed ->].
    destruct passed.
    + edestruct (Hshape (Ok (true, None))) as [? ?];
        [right; right; eexists _, _; split; [done|]; split; [done|]; by left|].
      split; [done|]. split; [done|]. split; [done|]. intros r [=].
    + edestruct (Hshape (Ok (false, Some "later"))) as [? ?];
        [right; right; eexists _, _; split; [done|]; split; [done|]; by left|].
      split; [done|]. split; [done|]. split; [done|].
      intros r [= <-] Hin. by not_among Hin.
  - rewrite Hrecent.
    destruct (Hshape (Ok (false, Some "generic")) (logged c w)) as [? ?];
      [by right; left|].
    split; [done|]. split; [done|]. split; [done|].
    intros r [= <-] Hin. by not_among Hin.
Qed.

Lemma filter_sublist {A : Type} (f : A → bool) (l : list A) :
  List.filter f l `sublist_of` l.
Proof.
  induction l as [|x l IH]; simpl; [constructor|].
  destruct (f x); [by apply sublist_skip | by apply sublist_cons].
Qed.

Lemma filter_filter {A : Type} (f : A → bool) (l : list A) :
  List.filter f (List.filter f l) = List.filter f l.
Proof.
  induction l as [|x l IH]; simpl; [done|].
  destruct (f x) eqn:Hx; simpl; [|done]. by rewrite Hx, IH.
Qed.

Lemma is_supported_recent_again (now : instant) (c : Challenge.t)
    (cfg : Configuration) (w : world) :
  Challenge.is_supported_recent now c cfg
    (Challenge.is_supported_recent now c cfg w).2
  = Challenge.is_supported_recent now c cfg w.
Proof.
  unfold Challenge.is_supported_recent.
  destruct (py_key (Challenge.challenger_name c)) as [k|e] eqn:Hk;
    cbn [fst snd recent_bot_challenges error_log]; [|done].
  rewrite !lookup_insert_eq. cbn [default from_option id].
  by rewrite filter_filter, insert_insert_eq.
Qed.

(** X4.  [is_supported_recent] only prunes: no entry of the mapping gains a
    timer, the timers left for the challenger's name are unexpired, and a
    second call at the same instant changes nothing more and gives the
    same answer. *)
Theorem is_supported_recent_prunes (now : instant) (c : Challenge.t)
    (cfg : Configuration) (w : world) :
  let w' := (Challenge.is_supported_recent now c cfg w).2 in
  (∀ k, default [] (recent_bot_challenges w' !! k)
        `sublist_of` default [] (recent_bot_challenges w !! k))
  ∧ (∀ k timer, py_key (Challenge.challenger_name c) = Ok k →
                timer ∈ default [] (recent_bot_challenges w' !! k) →
                is_expired now timer = false)
  ∧ Challenge.is_supported_recent now c cfg w'
    = ((Challenge.is_supported_recent now c cfg w).1, w').
Proof.
  intros w'. subst w'. rewrite is_supported_recent_again.
  unfold Challenge.is_supported_recent.
  destruct (py_key (Challenge.challenger_name c)) as [k|e] eqn:Hk;
    cbn [fst snd recent_bot_challenges error_log].
  - split; [|split].
    + intros k'. destruct (decide (k = k')) as [<-|Hne].
      * rewrite lookup_insert_eq. apply filter_sublist.
      * by rewrite lookup_insert_ne.
    + intros k' timer [= <-]. rewrite lookup_insert_eq. cbn [default from_option id].
      intros [_ Hkeep]%list_elem_of_In%filter_In. by apply negb_true_iff.
    + done.
  - split; [done|]. split; [intros ? ? [=]|]. done.
Qed.

(** X16.  With bots not accepted and only bots accepted, no challenge but
    one of the local account is supported: a bot is declined with "noBot"
    and anyone else with "onlyBot", before any other check runs. *)
Theorem is_supported_contradictory_bot_policy (now : instant) (c : Challenge.t)
    (cfg : Configuration) (w : world) :
  accept_bot cfg = false → only_bot cfg = true → Challenge.from_self c = false →
  Challenge.is_supported now c cfg w
  = (Ok (false, Some (if Challenge.challenger_is_bot c then "noBot" else "onlyBot")),
     w).
Proof.
  intros Hacc Honly Hself. rewrite is_supported_cases, Hself, Hacc, Honly.
  by destruct (Challenge.challenger_is_bot c).
Qed.

(** X17.  The reason "generic" has two origins that the log tells apart:
    whenever an error is logged the decision is the generic decline; and a
    generic decline either comes from the block list, with the world
    untouched, or comes with the id of the challenge added to the log. *)
Theorem is_supported_generic_origin (now : instant) (c : Challenge.t)
    (cfg : Configuration) (w : world) :
  let w' := (Challenge.is_supported now c cfg w).2 in
  (error_log w' = (error_log w ++ [Challenge.id c])%list →
   (Challenge.is_supported now c cfg w).1 = Ok (false, Some "generic"))
  ∧ ((Challenge.is_supported now c cfg w).1 = Ok (false, Some "generic") →
     (allowed (Challenge.challenger_name c) (block_list cfg) ∧ w' = w)
     ∨ error_log w' = (error_log w ++ [Challenge.id c])%list).
Proof.
  intros w'. subst w'.
  assert (∀ (l : list pyval) x, l = (l ++ [x])%list → False) as Hgrow.
  { intros l x Heq. apply (f_equal length) in Heq.
    rewrite length_app in Heq. simpl in Heq. lia. }
  rewrite is_supported_cases, <- py_in_list_allowed.
  pose proof (is_supported_recent_cases now c cfg w) as Hrecent.
  destruct (Challenge.from_self c).
  { split; [by intros ?%Hgrow | done]. }
  destruct (accept_bot cfg || negb (Challenge.challenger_is_bot c)); cbn [negb].
  2: { split; [by intros ?%Hgrow | done]. }
  destruct (negb (only_bot cfg) || Challenge.challenger_is_bot c); cbn [negb].
  2: { split; [by intros ?%Hgrow | done]. }
  destruct (Challenge.is_supported_time_control c cfg) as [[]|].
  2: { split; [by intros ?%Hgrow | done]. }
  2: { split; [done | by right]. }
  destruct (Challenge.is_supported_variant c cfg); cbn [negb].
  2: { split; [by intros ?%Hgrow | done]. }
  destruct (Challenge.is_supported_mode c cfg); cbn [negb].
  2: { split; [by intros ?%Hgrow|]. by destruct (py_truthy (Challenge.rated c)). }
  destruct (py_in_list (Challenge.challenger_name c) (block_list cfg)).
  { split; [done | by left]. }
  destruct (py_key (Challenge.challenger_name c)) as [k|e].
  - destruct Hrecent as [[] ->]; (split; [by intros ?%Hgrow | done]).
  - rewrite Hrecent. split; [done | by right].
Qed.

(** X18.  Asking twice at the same instant gives the same decision: a
    second call of [is_supported] on the world the first call left decides
    as the first did and leaves the mapping as the first call left it. *)
Theorem is_supported_twice (now : instant) (c : Challenge.t)
    (cfg : Configuration) (w : world) :
  let first := Challenge.is_supported now c cfg w in
  let second := Challenge.is_supported now c cfg first.2 in
  second.1 = first.1
  ∧ recent_bot_challenges second.2 = recent_bot_challenges first.2.
Proof.
  intros first second. subst first second.
  assert (∀ w0, (Challenge.is_supported_recent now c cfg (logged c w0)).1
                = (Challenge.is_supported_recent now c cfg w0).1
                ∧ recent_bot_challenges
                    (Challenge.is_supported_recent now c cfg (logged c w0)).2
                  = recent_bot_challenges
                      (Challenge.is_supported_recent now c cfg w0).2) as Hlogged.
  { intros w0. unfold Challenge.is_supported_recent, logged.
    by destruct (py_key (Challenge.challenger_name c)). }
  pose proof (is_supported_recent_again now c cfg w) as Hagain.
  rewrite !is_supported_cases.
  destruct (Challenge.from_self c); [done|].
  destruct (accept_bot cfg || negb (Challenge.challenger_is_bot c)); [|done].
  destruct (negb (only_bot cfg) || Challenge.challenger_is_bot c); [|done].
  cbn [negb].
  destruct (Challenge.is_supported_time_control c cfg) as [[]|]; [|done..].
  destruct (Challenge.is_supported_variant c cfg); [|done].
  destruct (Challenge.is_supported_mode c cfg); [|done].
  cbn [negb].
  destruct (py_in_list (Challenge.challenger_name c) (block_list cfg)); [done|].
  destruct (Challenge.is_supported_recent now c cfg w) as [[[]|e] w1] eqn:Hfirst;
    cbn [fst snd] in *.
  - by rewrite Hagain.
  - by rewrite Hagain.
  - destruct (Hlogged w1) as [Hres Hmap]. rewrite Hagain in Hres, Hmap.
    cbn [fst snd] in Hres, Hmap.
    by destruct (Challenge.is_supported_recent now c cfg (logged c w1))
      as [[[]|] w2]; simplify_eq/=.
Qed.

End DecisionProperties.

(** ** Construction of a challenge, and its score *)

Lemma dict_getitem_ok (d : gmap string pyval) (k : string) (v : pyval) :
  dict_getitem d k = Ok v ↔ d !! k = Some v.
Proof. unfold dict_getitem. destruct (d !! k); split; congruence. Qed.

Lemma py_getitem_ok (v : pyval) (k : string) (x : pyval) :
  py_getitem v k = Ok x ↔ ∃ d, v = PDict d ∧ d !! k = Some x.
Proof.
  destruct v; simpl; try (split; [discriminate | by intros (? & [=] & _)]).
  rewrite dict_getitem_ok. split; [eauto | by intros (? & [= <-] & ?)].
Qed.

Lemma py_get_ok (v : pyval) (k : string) (dflt x : pyval) :
  py_get v k dflt = Ok x ↔ ∃ d, v = PDict d ∧ x = default dflt (d !! k).
Proof.
  destruct v; simpl; try (split; [discriminate | by intros (? & [=] & _)]).
  split; [intros [= <-]; eauto | by intros (? & [= <-] & ->)].
Qed.

Lemma py_or_empty_object (v : pyval) :
  (∃ d, py_or v (PDict ∅) = PDict d) ↔ object_or_nothing v.
Proof.
  unfold py_or, object_or_nothing, is_object.
  destruct (py_truthy v) eqn:Hv.
  - split; [eauto|]. by intros [?|?].
  - split; [by left | eauto].
Qed.

Lemma py_get_or_empty (v : pyval) (k : string) (dflt x : pyval) :
  py_get (py_or v (PDict ∅)) k dflt = Ok x →
  x = default dflt (match v with PDict d => d !! k | _ => None end).
Proof.
  unfold py_or. destruct v as [| | | | |d]; simpl;
    try (by rewrite lookup_empty; intros [= <-]);
    try (case_match; simpl; intros; simplify_eq; by rewrite ?lookup_empty).
  destruct (size d) eqn:Hsize; simpl.
  - apply map_size_empty_iff in Hsize as ->. by intros [= <-].
  - by intros [= <-].
Qed.

Lemma time_control_get_field (c_info : gmap string pyval) (k : string) (x : pyval) :
  Challenge.time_control_get c_info k = Ok x → x = time_control_field c_info k.
Proof.
  unfold Challenge.time_control_get, time_control_field, dict_get.
  destruct (c_info !! "timeControl") as [[]|]; simpl; try discriminate.
  - by intros [= <-].
  - rewrite lookup_empty. by intros [= <-].
Qed.



(** X6.  A constructed challenge holds the values of its payload: [id],
    [rated] and [speed] as they are, the key of the variant, the name of
    the perf, and the entries [increment], [limit] (stored as [base]) and
    [daysPerTurn] of the time control, each [None] when the payload has no
    time control or the time control lacks the entry. *)
Theorem Challenge_init_reads_payload (c_info : gmap string pyval)
    (profile : UserProfile) (c : Challenge.t) :
  Challenge.init c_info profile = Ok c →
  c_info !! "id" = Some (Challenge.id c)
  ∧ c_info !! "rated" = Some (Challenge.rated c)
  ∧ c_info !! "speed" = Some (Challenge.speed c)
  ∧ (∃ d, c_info !! "variant" = Some (PDict d)
          ∧ d !! "key" = Some (Challenge.variant c))
  ∧ (∃ d, c_info !! "perf" = Some (PDict d)
          ∧ d !! "name" = Some (Challenge.perf_name c))
  ∧ Challenge.increment c = time_control_field c_info "increment"
  ∧ Challenge.base c = time_control_field c_info "limit"
  ∧ Challenge.days c = time_control_field c_info "daysPerTurn".
Proof.
  intros Hinit. unfold Challenge.init in Hinit.
  destruct (dict_getitem c_info "id") as [v_id|] eqn:Hid; [|done].
  destruct (dict_getitem c_info "rated") as [v_rated|] eqn:Hrated; [|done].
  cbn [mbind result_bind] in Hinit.
  destruct (dict_getitem c_info "variant") as [v_variant|] eqn:Hvariant; [|done].
  cbn [mbind result_bind] in Hinit.
  destruct (py_getitem v_variant "key") as [v_key|] eqn:Hkey; [|done].
  destruct (dict_getitem c_info "perf") as [v_perf|] eqn:Hperf; [|done].
  cbn [mbind result_bind] in Hinit.
  destruct (py_getitem v_perf "name") as [v_name|] eqn:Hname; [|done].
  destruct (dict_getitem c_info "speed") as [v_speed|] eqn:Hspeed; [|done].
  cbn [mbind result_bind] in Hinit.
  destruct (Challenge.time_control_get c_info "increment") as [v_inc|] eqn:Hinc;
    [|done].
  destruct (Challenge.time_control_get c_info "limit") as [v_base|] eqn:Hbase;
    [|done].
  destruct (Challenge.time_control_get c_info "daysPerTurn") as [v_days|] eqn:Hdays;
    [|done].
  cbn [mbind result_bind] in Hinit. invert_binds Hinit.
  injection Hinit as <-. cbn.
  apply dict_getitem_ok in Hid, Hrated, Hvariant, Hperf, Hspeed.
  apply py_getitem_ok in Hkey as (dk & -> & Hkey), Hname as (dn & -> & Hname).
  apply time_control_get_field in Hinc, Hbase, Hdays.
  repeat split; eauto.
Qed.

(** X7.  The challenger of a constructed challenge: title, name and rating
    are the entries of the payload's challenger, with the name "Anonymous"
    and the rating 0 when there is none; the rating shown is "?" when the
    rating is falsy; the challenger is a bot iff its title is "BOT"; a bot
    has no master title and anyone else has the title as master title; and
    the challenge is from the local account iff the name is its username. *)
Theorem Challenge_init_challenger (c_info : gmap string pyval)
    (profile : UserProfile) (c : Challenge.t) :
  Challenge.init c_info profile = Ok c →
  Challenge.challenger_title c = default PNone (challenger_field c_info "title")
  ∧ Challenge.challenger_name c
    = default (PStr "Anonymous") (challenger_field c_info "name")
  ∧ Challenge.challenger_rating_int c
    = default (PInt 0) (challenger_field c_info "rating")
  ∧ Challenge.challenger_rating c
    = (if py_truthy (Challenge.challenger_rating_int c)
       then Challenge.challenger_rating_int c else PStr "?")
  ∧ (Challenge.challenger_is_bot c = true ↔ Challenge.challenger_title c = PStr "BOT")
  ∧ Challenge.challenger_master_title c
    = (if Challenge.challenger_is_bot c then PNone else Challenge.challenger_title c)
  ∧ (Challenge.from_self c = true ↔
     Challenge.challenger_name c = PStr (profile_username profile)).
Proof.
  assert (∀ v s, py_eq_str v s = true ↔ v = PStr s) as Heq.
  { intros v s. destruct v; simpl; try (split; congruence).
    rewrite bool_decide_eq_true. split; congruence. }
  intros Hinit. unfold Challenge.init in Hinit.
  destruct (py_get (py_or (dict_get c_info "challenger") (PDict ∅)) "title" PNone)
    as [v_title|] eqn:Htitle; [|by invert_binds Hinit].
  destruct (py_get (py_or (dict_get c_info "challenger") (PDict ∅)) "name"
              (PStr "Anonymous")) as [v_name|] eqn:Hname; [|by invert_binds Hinit].
  destruct (py_get (py_or (dict_get c_info "challenger") (PDict ∅)) "rating"
              (PInt 0)) as [v_rating|] eqn:Hrating; [|by invert_binds Hinit].
  invert_binds Hinit. injection Hinit as <-. cbn.
  apply py_get_or_empty in Htitle, Hname, Hrating.
  unfold challenger_field, dict_get in *.
  assert (∀ k, match default PNone (c_info !! "challenger") with
               | PDict d => d !! k
               | _ => None
               end
               = match c_info !! "challenger" with
                 | Some (PDict who) => who !! k
                 | _ => None
                 end) as Hfield.
  { intros k. by destruct (c_info !! "challenger") as [[]|]. }
  rewrite Hfield in Htitle, Hname, Hrating. subst.
  repeat split; try done; try apply Heq.
  by destruct (py_eq_str _ "BOT").
Qed.

Lemma Challenge_init_master_title (c_info : gmap string pyval)
    (profile : UserProfile) (c : Challenge.t) :
  Challenge.init c_info profile = Ok c →
  Challenge.challenger_master_title c
  = (if Challenge.challenger_is_bot c then PNone else Challenge.challenger_title c).
Proof.
  intros Hinit. unfold Challenge.init in Hinit. invert_binds Hinit.
  injection Hinit as <-. cbn. by destruct (py_eq_str _ "BOT").
Qed.

(** X8.  The score of a constructed challenge whose rating is a number is
    the rating, plus 200 when the challenge is rated, plus 200 when the
    challenger has a title and is not a bot; when the rating is not a
    number, [score] raises a [TypeError]. *)
Theorem Challenge_score_spec (c_info : gmap string pyval) (profile : UserProfile)
    (c : Challenge.t) :
  Challenge.init c_info profile = Ok c →
  (∀ r, py_as_int (Challenge.challenger_rating_int c) = Some r →
        Challenge.score c
        = Ok (PInt (r + (if py_truthy (Challenge.rated c) then 200 else 0)
                      + (if Challenge.challenger_is_bot c then 0
                         else if py_truthy (Challenge.challenger_title c)
                              then 200 else 0))))
  ∧ (py_as_int (Challenge.challenger_rating_int c) = None →
     Challenge.score c = Raise TypeError).
Proof.
  intros Hmaster%Challenge_init_master_title.
  unfold Challenge.score, py_add. rewrite Hmaster. split.
  - intros r ->. cbn [py_as_int mbind result_bind].
    by destruct (Challenge.challenger_is_bot c).
  - intros ->. by destruct (Challenge.challenger_rating_int c).
Qed.

(** X9.  The time-control check raises nothing but a [TypeError], and only
    for an allowed speed: in a normal clock game when the increment is not
    a number, or when the increment is within its range and the base is not
    a number; in a game that is not a normal clock game when the days per
    turn are present and not a number.  A base that is not a number goes
    unnoticed when the increment is out of range. *)
Theorem is_supported_time_control_raises_iff (c : Challenge.t) (cfg : Configuration)
    (e : exn) :
  Challenge.is_supported_time_control c cfg = Raise e ↔
  e = TypeError
  ∧ allowed (Challenge.speed c) (time_controls cfg)
  ∧ ((Challenge.base c ≠ PNone ∧ Challenge.increment c ≠ PNone
      ∧ (py_as_int (Challenge.increment c) = None
         ∨ (within (min_increment cfg) (max_increment cfg) (Challenge.increment c)
            ∧ py_as_int (Challenge.base c) = None)))
     ∨ ((Challenge.base c = PNone ∨ Challenge.increment c = PNone)
        ∧ Challenge.days c ≠ PNone
        ∧ py_as_int (Challenge.days c) = None)).
Proof.
  assert (∀ e0 lo v hi, py_between lo v hi = Raise e0 ↔
                        e0 = TypeError ∧ py_as_int v = None) as Hraise.
  { intros e0 lo v hi. unfold py_between, num_le_py, py_le_num, mbind, result_bind.
    destruct (py_as_int v); [|split; [by intros [= <-] | by intros [-> _]]].
    destruct (num_leb lo _); split; try done; by intros [_ [=]]. }
  rewrite <- py_in_list_allowed.
  destruct (py_in_list (Challenge.speed c) (time_controls cfg)) eqn:Hs.
  2: { rewrite time_control_speed_refused by done.
       split; [done | by intros (_ & [=] & _)]. }
  assert ((Challenge.base c = PNone ∨ Challenge.increment c = PNone)
          ∨ (Challenge.base c ≠ PNone ∧ Challenge.increment c ≠ PNone))
    as [Hlone|[Hb Hi]].
  { destruct (py_is_not_none (Challenge.base c)) eqn:Hb;
      [|by left; left; apply py_is_not_none_false].
    destruct (py_is_not_none (Challenge.increment c)) eqn:Hi;
      [|by left; right; apply py_is_not_none_false].
    right. by split; apply py_is_not_none_true. }
  - rewrite time_control_not_clock by done.
    destruct (py_is_not_none (Challenge.days c)) eqn:Hd.
    + rewrite Hraise. apply py_is_not_none_true in Hd. split.
      * intros [-> ?]. split; [done|]. split; [done|]. by right.
      * intros (-> & _ & [(Hb & Hi & _)|(_ & _ & ?)]); [|done].
        by destruct Hlone.
    + apply py_is_not_none_false in Hd. split; [done|].
      intros (_ & _ & [(Hb & Hi & _)|(_ & ? & _)]); [by destruct Hlone | done].
  - rewrite time_control_clock by done. unfold mbind, result_bind.
    destruct (py_between (min_increment cfg) (Challenge.increment c) _)
      as [[]|e'] eqn:Hinc.
    + apply py_between_within in Hinc. rewrite Hraise. split.
      * intros [-> ?]. split; [done|]. split; [done|]. left. eauto 6.
      * intros (-> & _ & [(_ & _ & [Hnum|[_ ?]])|(Hl & _)]); [|done|tauto].
        destruct Hinc as (z & Hz & _). congruence.
    + split; [done|].
      intros (_ & _ & [(_ & _ & [Hnum|[Hin _]])|(Hl & _)]); [| |tauto].
      * unfold py_between, num_le_py, mbind, result_bind in Hinc.
        by rewrite Hnum in Hinc.
      * apply py_between_within in Hin. congruence.
    + apply Hraise in Hinc as [-> Hnum]. split.
      * intros [= <-]. split; [done|]. split; [done|]. left. eauto.
      * by intros (-> & _).
Qed.

(** ** Construction and polling of a game *)

Section FurtherGameProperties.
Context `{clock : Clock}.

Lemma Player_init_ok (v : pyval) (p : Player.t) :
  Player.init v = Ok p ↔
  ∃ d, v = PDict d
       ∧ p = {| Player.name := dict_get d "name";
                Player.title := dict_get d "title";
                Player.rating := dict_get d "rating";
                Player.provisional := dict_get d "provisional";
                Player.aiLevel := dict_get d "aiLevel" |}.
Proof.
  unfold Player.init.
  destruct v; simpl; try (split; [discriminate | by intros (? & [=] & _)]).
  split; [intros [= <-]; eauto | by intros (? & [= <-] & ->)].
Qed.

Lemma dict_get_object (d : gmap string pyval) (k : string) (x : gmap string pyval) :
  dict_get d k = PDict x ↔ d !! k = Some (PDict x).
Proof. unfold dict_get. destruct (d !! k); simpl; split; congruence. Qed.

Lemma py_lower_ok (v : pyval) (s : string) :
  py_lower (py_or v (PStr "")) = Ok s →
  py_truthy v = false ∨ ∃ n, v = PStr n.
Proof.
  unfold py_or. destruct (py_truthy v) eqn:Hv; [|by left].
  destruct v; simpl; try discriminate. eauto.
Qed.

Lemma py_add_truediv_ok (x y total : pyval) (d : positive) (q : Q) :
  py_add x y = Ok total → py_truediv total d = Ok q →
  ∃ zx zy, py_as_int x = Some zx ∧ py_as_int y = Some zy
           ∧ (Z.abs (zx + zy) < float_overflow * Z.pos d)%Z.
Proof.
  unfold py_add, py_truediv.
  destruct (py_as_int x) as [zx|] eqn:Hx, (py_as_int y) as [zy|] eqn:Hy.
  - intros [= <-]. simpl. case_match eqn:Hlt; [|done].
    intros _. apply Z.ltb_lt in Hlt. eauto.
  - destruct x, y; try discriminate; by intros [= <-].
  - destruct x, y; try discriminate; by intros [= <-].
  - destruct x, y; try discriminate; by intros [= <-].
Qed.

(** X10.  A game can be made of a payload exactly when the payload has the
    shape [game_payload_ok] and the abort delay is of a size a float can
    hold: otherwise the constructor raises. *)
Theorem Game_init_succeeds_iff (now : instant) (json : gmap string pyval)
    (u b : string) (a : Z) (h : heap) :
  (∃ g h', Game.init now json u b a h = Ok (g, h')) ↔
  game_payload_ok json ∧ (Z.abs a < float_overflow)%Z.
Proof.
  split; [|by intros [? ?]; apply Game_init_succeeds].
  intros (g & h' & Hinit). unfold Game.init, alloc in Hinit.
  destruct (py_get (py_or (dict_get json "clock") (PDict ∅)) "initial" _)
    as [ci|] eqn:Hci; [|done].
  destruct (py_get (py_or (dict_get json "clock") (PDict ∅)) "increment" _)
    as [cc|] eqn:Hcc; [|done].
  cbn [mbind result_bind] in Hinit.
  destruct (py_get (py_or (dict_get json "perf") (PDict ∅)) "name" _)
    as [pn|] eqn:Hpn; [|done].
  destruct (py_getitem (dict_get json "variant") "name") as [vn|] eqn:Hvn; [|done].
  cbn [mbind result_bind] in Hinit.
  destruct (Player.init (dict_get json "white")) as [pw|] eqn:Hpw; [|done].
  destruct (Player.init (dict_get json "black")) as [pb|] eqn:Hpb; [|done].
  cbn [mbind result_bind] in Hinit.
  destruct (py_lower (py_or (Player.name pw) (PStr ""))) as [wn|] eqn:Hwn; [|done].
  destruct (py_add ci cc) as [total|] eqn:Htotal; [|done].
  cbn [mbind result_bind] in Hinit.
  destruct (py_truediv total 1000) as [ts|] eqn:Hts; [|done].
  cbn [mbind result_bind] in Hinit.
  unfold float_add_int in Hinit.
  destruct (Z.abs a <? float_overflow)%Z eqn:Ha; [|done].
  split; [|by apply Z.ltb_lt]. clear Hinit.
  pose proof (py_get_clock_field _ _ _ _ Hci) as ->.
  pose proof (py_get_clock_field _ _ _ _ Hcc) as ->.
  apply py_get_ok in Hci as (dc & Hclock & _), Hpn as (dp & Hperf & _).
  apply py_getitem_ok in Hvn as (dv & Hv%dict_get_object & Hname).
  apply Player_init_ok in Hpw as (dw & Hw & ->), Hpb as (db & Hb & _).
  apply py_lower_ok in Hwn. cbn [Player.name] in Hwn.
  split.
  - apply py_or_empty_object. eauto.
  - apply py_or_empty_object. eauto.
  - eauto.
  - exists dw. split; [by apply dict_get_object|].
    destruct Hwn as [?|[n Hn]]; [by left|]. right. exists n.
    unfold dict_get in Hn. destruct (dw !! "name"); by simplify_eq/=.
  - by exists db.
  - destruct (py_add_truediv_ok _ _ _ _ _ Htotal Hts) as (zi & zc & ? & ? & ?).
    eauto.
Qed.

(** X11.  A constructed game holds what it was given: the username, the
    base URL, the payload's id, speed, first position and state, the name
    of the perf ("{perf?}" when there is none) and the name of the variant;
    its abort timer is armed with the abort delay and its disconnect timer
    with no delay.  The construction adds its two players to the heap as
    new objects and changes no object that was there. *)
Theorem Game_init_reads_payload (now : instant) (json : gmap string pyval)
    (u b : string) (a : Z) (h : heap) (g : Game.t) (h' : heap) :
  Game.init now json u b a h = Ok (g, h') →
  Game.username g = u
  ∧ Game.base_url g = b
  ∧ Game.id g = dict_get json "id"
  ∧ Game.speed g = dict_get json "speed"
  ∧ Game.initial_fen g = dict_get json "initialFen"
  ∧ Game.state g = dict_get json "state"
  ∧ Game.perf_name g = default (PStr "{perf?}") (perf_field json)
  ∧ (∃ d, json !! "variant" = Some (PDict d)
          ∧ d !! "name" = Some (Game.variant_name g))
  ∧ Game.abort_time g = Timer_new now (inject_Z a)
  ∧ Game.disconnect_time g = Timer_new now 0%Q
  ∧ length h' = (length h + 2)%nat
  ∧ (∀ i p, h !! i = Some p → h' !! i = Some p)
  ∧ h !! Game.white g = None
  ∧ h !! Game.black g = None.
Proof.
  intros Hinit.
  pose proof (Game_init_inv _ _ _ _ _ _ _ _ Hinit)
    as (pw & pb & wn & _ & _ & _ & _ & -> & Hwhite & Hblack & _).
  unfold Game.init, alloc in Hinit.
  destruct (py_get (py_or (dict_get json "perf") (PDict ∅)) "name" _)
    as [pn|] eqn:Hpn; [|by invert_binds Hinit].
  destruct (py_getitem (dict_get json "variant") "name") as [vn|] eqn:Hvn;
    [|by invert_binds Hinit].
  invert_binds Hinit. injection Hinit as <- _. cbn in *.
  apply py_get_or_empty in Hpn.
  apply py_getitem_ok in Hvn as (dv & Hv%dict_get_object & Hname).
  repeat split; try done.
  - rewrite Hpn. unfold perf_field, dict_get.
    by destruct (json !! "perf") as [[]|].
  - eauto.
  - rewrite length_app. simpl. lia.
  - intros i p Hi. by apply lookup_app_l_Some.
  - apply lookup_ge_None. lia.
  - apply lookup_ge_None. lia.
Qed.

(** X12.  [is_abortable] answers exactly when the state is an object whose
    entry [moves] has a length, and then says whether the length is below
    six; it raises a [KeyError] exactly when the state is an object without
    the entry, and a [TypeError] otherwise.  When it raises, [ping] and
    [should_abort_now] raise the same exception: no timer is armed. *)
Theorem is_abortable_spec (g : Game.t) :
  (∀ abortable, Game.is_abortable g = Ok abortable ↔
     ∃ d moves n, Game.state g = PDict d ∧ d !! "moves" = Some moves
                  ∧ py_len moves = Ok n ∧ abortable = Z.ltb n 6)
  ∧ (Game.is_abortable g = Raise KeyError ↔
     ∃ d, Game.state g = PDict d ∧ d !! "moves" = None)
  ∧ (∀ e, Game.is_abortable g = Raise e →
       (e = KeyError ∨ e = TypeError)
       ∧ ∀ now abort_in terminate_in disconnect_in,
           Game.ping now g abort_in terminate_in disconnect_in = Raise e
           ∧ Game.should_abort_now now g = Raise e).
Proof.
  unfold Game.ping, Game.should_abort_now, Game.is_abortable, mbind, result_bind.
  destruct (Game.state g) as [| | | | |d]; simpl;
    try (split; [split; [done | by intros (? & ? & ? & [=] & _)]|];
         split; [split; [done | by intros (? & [=] & _)]|];
         by intros e [= <-]; split; [right|]).
  unfold dict_getitem. destruct (d !! "moves") as [moves|] eqn:Hmoves.
  - split; [|split].
    + intros abortable. destruct (py_len moves) as [n|] eqn:Hn.
      * split; [intros [= <-]; eauto 7|].
        intros (d0 & m0 & n0 & [= <-] & Hm & Hl & ->).
        rewrite Hmoves in Hm. injection Hm as <-. rewrite Hn in Hl.
        by injection Hl as <-.
      * split; [done|]. intros (d0 & m0 & n0 & [= <-] & Hm & Hl & _).
        rewrite Hmoves in Hm. injection Hm as <-. by rewrite Hn in Hl.
    + split; [by destruct moves|]. intros (d0 & [= <-] & Hm).
      by rewrite Hmoves in Hm.
    + intros e. destruct moves; simpl; try done; by intros [= <-]; split; [right|].
  - split; [|split].
    + intros abortable. split; [done|].
      intros (d0 & m0 & n0 & [= <-] & Hm & _). by rewrite Hmoves in Hm.
    + split; eauto.
    + by intros e [= <-]; split; [left|].
Qed.

(** X13.  The last ping wins: pinging a pinged game gives the game that
    the second ping alone gives. *)
Theorem ping_ping (now1 now2 : instant) (g g1 : Game.t)
    (abort1 terminate1 disconnect1 abort2 terminate2 disconnect2 : Q) :
  Game.ping now1 g abort1 terminate1 disconnect1 = Ok g1 →
  Game.ping now2 g1 abort2 terminate2 disconnect2
  = Game.ping now2 g abort2 terminate2 disconnect2.
Proof.
  unfold Game.ping, Game.is_abortable, mbind, result_bind.
  destruct (py_getitem (Game.state g) "moves") as [moves|] eqn:Hmoves; [|done].
  destruct (py_len moves) as [n|] eqn:Hn; [|done].
  intros [= <-]. destruct (n <? 6)%Z eqn:Hlt; simpl; by rewrite Hmoves, Hn, Hlt.
Qed.

(** X14.  After a ping the polls answer from the delays of that ping: the
    game is abortable as before, [should_terminate_now] and
    [should_disconnect_now] poll the timers armed by the ping, and
    [should_abort_now] is false for a game that is not abortable and polls
    the abort timer armed by the ping otherwise. *)
Theorem polls_after_ping (now later : instant) (g g' : Game.t)
    (abort_in terminate_in disconnect_in : Q) :
  Game.ping now g abort_in terminate_in disconnect_in = Ok g' →
  ∃ abortable,
    Game.is_abortable g = Ok abortable
    ∧ Game.is_abortable g' = Ok abortable
    ∧ Game.should_abort_now later g'
      = Ok (abortable && is_expired later (Timer_new now abort_in))
    ∧ Game.should_terminate_now later g'
      = is_expired later (Timer_new now terminate_in)
    ∧ Game.should_disconnect_now later g'
      = is_expired later (Timer_new now disconnect_in).
Proof.
  unfold Game.ping, Game.should_abort_now, Game.should_terminate_now,
    Game.should_disconnect_now, Game.is_abortable, mbind, result_bind.
  destruct (py_getitem (Game.state g) "moves") as [moves|] eqn:Hmoves; [|done].
  destruct (py_len moves) as [n|] eqn:Hn; [|done].
  intros [= <-]. exists (n <? 6)%Z. split; [done|].
  destruct (n <? 6)%Z eqn:Hlt; simpl; by rewrite Hmoves, Hn, Hlt.
Qed.

(** X15.  [my_remaining_seconds] reads the clock of the local account
    only: [wtime] for white and [btime] for black.  It returns exactly when
    the state is an object that holds a number of a size a float can hold
    there; it raises a [KeyError] exactly when the state is an object
    without the entry; and two games of the same colour with the same entry
    give the same answer, whatever else their states hold. *)
Theorem my_remaining_seconds_spec (g : Game.t) :
  ((∃ seconds, Game.my_remaining_seconds g = Ok seconds) ↔
   ∃ d ms z, Game.state g = PDict d ∧ d !! my_clock_key g = Some ms
             ∧ py_as_int ms = Some z
             ∧ (Z.abs z < float_overflow * 1000)%Z)
  ∧ (Game.my_remaining_seconds g = Raise KeyError ↔
     ∃ d, Game.state g = PDict d ∧ d !! my_clock_key g = None)
  ∧ (∀ g', Game.is_white g' = Game.is_white g →
           py_getitem (Game.state g') (my_clock_key g)
           = py_getitem (Game.state g) (my_clock_key g) →
           Game.my_remaining_seconds g' = Game.my_remaining_seconds g).
Proof.
  assert (Game.my_remaining_seconds g
          = (ms ← py_getitem (Game.state g) (my_clock_key g); py_truediv ms 1000))
    as Hread.
  { unfold Game.my_remaining_seconds, my_clock_key. by destruct (Game.is_white g). }
  split; [|split].
  - rewrite Hread. unfold mbind, result_bind, py_truediv. split.
    + intros [seconds Hs].
      destruct (py_getitem (Game.state g) (my_clock_key g)) as [ms|] eqn:Hms;
        [|done].
      apply py_getitem_ok in Hms as (d & Hd & Hms).
      destruct (py_as_int ms) as [z|] eqn:Hz; [|done].
      case_match eqn:Hlt; [|done]. apply Z.ltb_lt in Hlt. eauto 8.
    + intros (d & ms & z & Hd & Hms & Hz & Hlt%Z.ltb_lt).
      rewrite Hd. simpl. unfold dict_getitem. rewrite Hms, Hz, Hlt. eauto.
  - rewrite Hread. unfold mbind, result_bind, py_truediv. split.
    + destruct (Game.state g) as [| | | | |d]; simpl; try done.
      unfold dict_getitem. destruct (d !! my_clock_key g) as [ms|] eqn:Hms;
        [|eauto].
      destruct (py_as_int ms); [|done]. by case_match.
    + intros (d & -> & Hms). simpl. unfold dict_getitem. by rewrite Hms.
  - intros g' Hcolour Hentry. rewrite Hread.
    unfold Game.my_remaining_seconds, my_clock_key in *. rewrite Hcolour.
    by destruct (Game.is_white g); rewrite Hentry.
Qed.

End FurtherGameProperties.

(** ** The properties at the sample inputs *)

#[local] Existing Instance seconds_clock.

Lemma is_supported_time_control_spec_witness :
  Challenge.is_supported_time_control Samples.own_challenge Samples.config = Ok false
  ∧ (Challenge.is_supported_time_control Samples.bot_challenge Samples.config = Ok true
     ↔ within (Fin 0) (Fin 180) (PInt 3) ∧ within (Fin 60) (Fin 1800) (PInt 300))
  ∧ (Challenge.is_supported_time_control
       (Samples.from_alice "corr01" "Correspondence" "correspondence"
                           PNone PNone (PInt 3)) Samples.config = Ok true
     ↔ within (Fin 1) (Fin 14) (PInt 3))
  ∧ (Challenge.is_supported_time_control Samples.base_only Samples.config = Ok true
     ↔ Fin 14 = Inf).
Proof.
  split; [|split; [|split]].
  - apply (proj1 (is_supported_time_control_spec Samples.own_challenge Samples.config)).
    apply py_in_list_not_allowed. vm_compute. reflexivity.
  - apply (proj2 (is_supported_time_control_spec Samples.bot_challenge Samples.config)).
    + apply py_in_list_allowed. vm_compute. reflexivity.
    + simpl. discriminate.
    + simpl. discriminate.
  - apply (proj2 (is_supported_time_control_spec
                    (Samples.from_alice "corr01" "Correspondence" "correspondence"
                                        PNone PNone (PInt 3)) Samples.config)).
    + apply py_in_list_allowed. vm_compute. reflexivity.
    + left. reflexivity.
    + simpl. discriminate.
  - apply (proj2 (is_supported_time_control_spec Samples.base_only Samples.config)).
    + apply py_in_list_allowed. vm_compute. reflexivity.
    + right. reflexivity.
    + reflexivity.
Defined.

Lemma lone_clock_field_is_unlimited_witness :
  Challenge.init Samples.base_only_info Samples.profile = Ok Samples.base_only
  ∧ Challenge.time_control_get Samples.base_only_info "limit" = Ok (PStr "900")
  ∧ Challenge.is_supported_time_control Samples.base_only Samples.config = Ok false.
Proof.
  split; [vm_compute; reflexivity|]. split; [vm_compute; reflexivity|].
  apply (lone_clock_field_is_unlimited Samples.base_only_info Samples.profile).
  - vm_compute. reflexivity.
  - vm_compute. reflexivity.
  - right. vm_compute. reflexivity.
Defined.

Lemma is_supported_self_challenge_witness :
  Challenge.init Samples.own_challenge_info Samples.profile = Ok Samples.own_challenge
  ∧ Challenge.is_supported_variant Samples.own_challenge Samples.config = false
  ∧ Challenge.is_supported 0%Q Samples.own_challenge Samples.config Samples.quiet_world
    = (Ok (true, None), Samples.quiet_world).
Proof.
  split; [vm_compute; reflexivity|]. split; [vm_compute; reflexivity|].
  apply (is_supported_self_challenge (clock := seconds_clock) 0%Q Samples.own_challenge_info Samples.profile).
  - vm_compute. reflexivity.
  - reflexivity.
Defined.

Lemma is_supported_recent_spec_witness :
  ∃ (passed : bool) (w' : world),
    Challenge.is_supported_recent 100%Q Samples.bot_challenge Samples.config
                                  Samples.busy_world = (Ok passed, w')
    ∧ recent_bot_challenges w' !! KStr "otherbot"
      = Some [Timer_new 80%Q 30%Q; Timer_new 90%Q 60%Q]
    ∧ passed = false.
Proof.
  destruct (is_supported_recent_spec (clock := seconds_clock) 100%Q Samples.bot_challenge Samples.config
              Samples.busy_world (KStr "otherbot") eq_refl)
    as (passed & w' & Hrun & Hkept & _ & _ & Hpassed).
  exists passed, w'. split; [exact Hrun|]. split; [exact Hkept|].
  destruct passed; [|reflexivity].
  destruct (proj1 Hpassed eq_refl) as [Hbot|[Hlimit|(limit & Hlimit & Hlt)]].
  - discriminate Hbot.
  - discriminate Hlimit.
  - injection Hlimit as <-. vm_compute in Hlt. discriminate Hlt.
Defined.

Lemma is_supported_first_failure_witness :
  Challenge.from_self Samples.bot_challenge = false
  ∧ Challenge.is_supported_variant Samples.bot_challenge Samples.config = false
  ∧ Challenge.is_supported 100%Q Samples.bot_challenge Samples.config Samples.busy_world
    = (Ok (false, Some "noBot"), Samples.busy_world).
Proof.
  split; [reflexivity|]. split; [vm_compute; reflexivity|].
  apply (proj1 (proj2 (is_supported_first_failure (clock := seconds_clock) 100%Q
                         Samples.bot_challenge Samples.config Samples.busy_world
                         eq_refl))).
  - reflexivity.
  - reflexivity.
  - vm_compute. reflexivity.
Defined.

Lemma is_supported_never_raises_witness :
  Challenge.is_supported_body 0%Q Samples.malformed Samples.config Samples.quiet_world
  = (Raise TypeError, Samples.quiet_world)
  ∧ Challenge.is_supported 0%Q Samples.malformed Samples.config Samples.quiet_world
    = (Ok (false, Some "generic"),
       {| recent_bot_challenges := ∅; error_log := [PStr "bad001"] |}).
Proof.
  split; [vm_compute; reflexivity|].
  apply (proj2 (is_supported_never_raises (clock := seconds_clock) 0%Q Samples.malformed Samples.config
                  Samples.quiet_world) TypeError Samples.quiet_world).
  vm_compute. reflexivity.
Defined.

Lemma ping_rearms_timers_witness :
  (∃ g', Game.ping 100%Q Samples.game 20 30 40 = Ok g'
     ∧ Game.terminate_time g' = Timer_new 100%Q 30%Q
     ∧ Game.disconnect_time g' = Timer_new 100%Q 40%Q
     ∧ Game.abort_time g' = Timer_new 100%Q 20%Q
     ∧ same_but_timers Samples.game g')
  ∧ (∃ g', Game.ping 100%Q Samples.late_game 20 30 40 = Ok g'
     ∧ Game.terminate_time g' = Timer_new 100%Q 30%Q
     ∧ Game.disconnect_time g' = Timer_new 100%Q 40%Q
     ∧ Game.abort_time g' = Timer_new 0%Q (inject_Z 20)
     ∧ same_but_timers Samples.late_game g').
Proof.
  split.
  - apply (ping_rearms_timers (clock := seconds_clock) 100%Q Samples.game 20 30 40 true).
    vm_compute. reflexivity.
  - apply (ping_rearms_timers (clock := seconds_clock) 100%Q Samples.late_game 20 30 40 false).
    vm_compute. reflexivity.
Defined.

Lemma should_abort_now_spec_witness :
  is_expired 100%Q (Game.abort_time Samples.late_game) = true
  ∧ Game.should_abort_now 100%Q Samples.late_game = Ok false
  ∧ Game.should_abort_now 100%Q Samples.game
    = Ok (is_expired 100%Q (Game.abort_time Samples.game)).
Proof.
  split; [vm_compute; reflexivity|]. split.
  - apply (proj1 (should_abort_now_spec (clock := seconds_clock) 100%Q Samples.late_game 6
                    ltac:(vm_compute; reflexivity))).
    lia.
  - exact (proj1 (proj2 (should_abort_now_spec (clock := seconds_clock) 100%Q
                           Samples.game 2 ltac:(vm_compute; reflexivity))
                    ltac:(lia))).
Defined.

Lemma sample_payload_ok : game_payload_ok Samples.game_info.
Proof.
  split.
  - left. vm_compute. reflexivity.
  - left. vm_compute. reflexivity.
  - eexists _, _. split; vm_compute; reflexivity.
  - eexists. split; [vm_compute; reflexivity|]. right. eexists. vm_compute. reflexivity.
  - eexists. vm_compute. reflexivity.
  - eexists _, _. split; [vm_compute; reflexivity|].
    split; [vm_compute; reflexivity|]. vm_compute. reflexivity.
Qed.

Lemma sample_clock_payload_ok : game_payload_ok Samples.clock_game_info.
Proof.
  split.
  - right. eexists. vm_compute. reflexivity.
  - left. vm_compute. reflexivity.
  - eexists _, _. split; vm_compute; reflexivity.
  - eexists. split; [vm_compute; reflexivity|]. right. eexists. vm_compute. reflexivity.
  - eexists. vm_compute. reflexivity.
  - eexists _, _. split; [vm_compute; reflexivity|].
    split; [vm_compute; reflexivity|]. vm_compute. reflexivity.
Qed.

Lemma Game_init_clock_witness :
  (∃ g h', Game.init 0%Q Samples.game_info "mybot" "https://lichess.org/" 20 []
           = Ok (g, h')
     ∧ Game.clock_initial g = PInt 315360000000
     ∧ Game.clock_increment g = PInt 0)
  ∧ (∃ g h', Game.init 0%Q Samples.clock_game_info "mybot" "https://lichess.org/" 20 []
             = Ok (g, h')
       ∧ Game.clock_initial g = PInt 300000
       ∧ Game.clock_increment g = PInt 3000).
Proof.
  split.
  - destruct (proj1 (Game_init_clock (clock := seconds_clock) 0%Q Samples.game_info
                       "mybot" "https://lichess.org/" 20 [])
                ltac:(vm_compute; reflexivity) sample_payload_ok)
      as (g & h' & Hinit).
    exists g, h'. split; [exact Hinit|].
    exact (proj2 (Game_init_clock (clock := seconds_clock) 0%Q Samples.game_info
                    "mybot" "https://lichess.org/" 20 []) g h' Hinit).
  - destruct (proj1 (Game_init_clock (clock := seconds_clock) 0%Q
                       Samples.clock_game_info "mybot" "https://lichess.org/" 20 [])
                ltac:(vm_compute; reflexivity) sample_clock_payload_ok)
      as (g & h' & Hinit).
    exists g, h'. split; [exact Hinit|].
    exact (proj2 (Game_init_clock (clock := seconds_clock) 0%Q
                    Samples.clock_game_info "mybot" "https://lichess.org/" 20 [])
             g h' Hinit).
Defined.

(** C5, as the specification states it, fails: the game constructed from a
    payload without a clock object has the clock increment zero, not ten
    years in milliseconds. *)
Lemma clock_increment_default_is_not_ten_years :
  clock_field Samples.game_info "increment" = None
  ∧ ∃ g h', Game.init 0%Q Samples.game_info "mybot" "https://lichess.org/" 20 []
            = Ok (g, h')
      ∧ Game.clock_increment g = PInt 0
      ∧ Game.clock_increment g ≠ PInt Game.ten_years_in_ms.
Proof.
  split; [vm_compute; reflexivity|].
  exists Samples.game, [Samples.white_player; Samples.black_player].
  split; [vm_compute; reflexivity|]. split; [reflexivity|]. discriminate.
Qed.

Lemma Game_init_sides_witness :
  ∃ pw pb : Player.t,
    Player.init (dict_get Samples.game_info "white") = Ok pw
    ∧ Player.init (dict_get Samples.game_info "black") = Ok pb
    ∧ [Samples.white_player; Samples.black_player] !! Game.white Samples.game = Some pw
    ∧ [Samples.white_player; Samples.black_player] !! Game.black Samples.game = Some pb
    ∧ Game.white Samples.game ≠ Game.black Samples.game
    ∧ Game.is_white Samples.game
      = bool_decide (lower (name_or_empty (Player.name pw)) = lower "mybot")
    ∧ Game.my_color Samples.game
      = (if Game.is_white Samples.game then "white" else "black")
    ∧ Game.opponent_color Samples.game
      = (if Game.is_white Samples.game then "black" else "white")
    ∧ (Game.me Samples.game = Game.white Samples.game
       ↔ Game.is_white Samples.game = true)
    ∧ (Game.me Samples.game = Game.black Samples.game
       ↔ Game.is_white Samples.game = false)
    ∧ (Game.opponent Samples.game = Game.black Samples.game
       ↔ Game.is_white Samples.game = true)
    ∧ (Game.opponent Samples.game = Game.white Samples.game
       ↔ Game.is_white Samples.game = false).
Proof.
  apply (Game_init_sides (clock := seconds_clock) 0%Q Samples.game_info "mybot" "https://lichess.org/" 20 []).
  vm_compute. reflexivity.
Defined.

(** ** The further properties at the sample inputs *)

Lemma Challenge_init_reads_payload_witness :
  Challenge.init Samples.anonymous_info Samples.profile
  = Ok Samples.anonymous_challenge
  ∧ Challenge.base Samples.anonymous_challenge = PNone
  ∧ Challenge.days Samples.anonymous_challenge = PInt 3.
Proof.
  split; [vm_compute; reflexivity|].
  destruct (Challenge_init_reads_payload Samples.anonymous_info Samples.profile
              Samples.anonymous_challenge ltac:(vm_compute; reflexivity))
    as (_ & _ & _ & _ & _ & _ & Hbase & Hdays).
  split; [exact Hbase | exact Hdays].
Defined.

Lemma Challenge_init_challenger_witness :
  challenger_field Samples.anonymous_info "name" = None
  ∧ Challenge.challenger_name Samples.anonymous_challenge = PStr "Anonymous"
  ∧ Challenge.challenger_rating_int Samples.anonymous_challenge = PInt 0
  ∧ (Challenge.challenger_is_bot Samples.bot_challenge = true
     ↔ Challenge.challenger_title Samples.bot_challenge = PStr "BOT").
Proof.
  split; [vm_compute; reflexivity|].
  destruct (Challenge_init_challenger Samples.anonymous_info Samples.profile
              Samples.anonymous_challenge ltac:(vm_compute; reflexivity))
    as (_ & Hname & Hrating & _).
  destruct (Challenge_init_challenger Samples.bot_challenge_info Samples.profile
              Samples.bot_challenge ltac:(vm_compute; reflexivity))
    as (_ & _ & _ & _ & Hbot & _).
  split; [exact Hname|]. split; [exact Hrating | exact Hbot].
Defined.

Lemma Challenge_score_spec_witness :
  Challenge.score Samples.titled_challenge = Ok (PInt 1900)
  ∧ Challenge.score Samples.bot_challenge = Ok (PInt 2200).
Proof.
  split.
  - exact (proj1 (Challenge_score_spec Samples.titled_info Samples.profile
                    Samples.titled_challenge ltac:(vm_compute; reflexivity))
             1500%Z eq_refl).
  - exact (proj1 (Challenge_score_spec Samples.bot_challenge_info Samples.profile
                    Samples.bot_challenge ltac:(vm_compute; reflexivity))
             2000%Z eq_refl).
Defined.

Lemma Game_init_reads_payload_witness :
  Game.perf_name Samples.game = PStr "{perf?}"
  ∧ Game.abort_time Samples.game = Timer_new 0%Q (inject_Z 20)
  ∧ Game.disconnect_time Samples.game = Timer_new 0%Q 0%Q
  ∧ Game.state Samples.game = dict_get Samples.game_info "state".
Proof.
  destruct (Game_init_reads_payload (clock := seconds_clock) 0%Q Samples.game_info
              "mybot" "https://lichess.org/" 20 [] Samples.game
              [Samples.white_player; Samples.black_player]
              ltac:(vm_compute; reflexivity))
    as (_ & _ & _ & _ & _ & Hstate & Hperf & _ & Habort & Hdisconnect & _).
  split; [exact Hperf|]. split; [exact Habort|].
  split; [exact Hdisconnect | exact Hstate].
Defined.

Lemma ping_ping_witness :
  Game.ping 100%Q Samples.game 20 30 40
  = Ok (Game.set_disconnect_time (Timer_new 100%Q 40%Q)
          (Game.set_terminate_time (Timer_new 100%Q 30%Q)
             (Game.set_abort_time (Timer_new 100%Q 20%Q) Samples.game)))
  ∧ Game.ping 200%Q
      (Game.set_disconnect_time (Timer_new 100%Q 40%Q)
         (Game.set_terminate_time (Timer_new 100%Q 30%Q)
            (Game.set_abort_time (Timer_new 100%Q 20%Q) Samples.game)))
      5 6 7
    = Game.ping 200%Q Samples.game 5 6 7.
Proof.
  split; [vm_compute; reflexivity|].
  apply (ping_ping (clock := seconds_clock) 100%Q 200%Q Samples.game _ 20 30 40).
  vm_compute. reflexivity.
Defined.

Lemma polls_after_ping_witness :
  ∃ abortable,
    Game.is_abortable Samples.late_game = Ok abortable
    ∧ Game.is_abortable
        (Game.set_disconnect_time (Timer_new 100%Q 40%Q)
           (Game.set_terminate_time (Timer_new 100%Q 30%Q) Samples.late_game))
      = Ok abortable
    ∧ Game.should_abort_now 200%Q
        (Game.set_disconnect_time (Timer_new 100%Q 40%Q)
           (Game.set_terminate_time (Timer_new 100%Q 30%Q) Samples.late_game))
      = Ok (abortable && is_expired 200%Q (Timer_new 100%Q 20%Q))
    ∧ Game.should_terminate_now 200%Q
        (Game.set_disconnect_time (Timer_new 100%Q 40%Q)
           (Game.set_terminate_time (Timer_new 100%Q 30%Q) Samples.late_game))
      = is_expired 200%Q (Timer_new 100%Q 30%Q)
    ∧ Game.should_disconnect_now 200%Q
        (Game.set_disconnect_time (Timer_new 100%Q 40%Q)
           (Game.set_terminate_time (Timer_new 100%Q 30%Q) Samples.late_game))
      = is_expired 200%Q (Timer_new 100%Q 40%Q).
Proof.
  apply (polls_after_ping (clock := seconds_clock) 100%Q 200%Q Samples.late_game
           _ 20 30 40).
  vm_compute. reflexivity.
Defined.

Lemma is_supported_contradictory_bot_policy_witness :
  Challenge.is_supported 0%Q Samples.titled_challenge
    {| variants := ["standard"]; time_controls := ["blitz"];
       max_increment := Fin 180; min_increment := Fin 0;
       max_base := Fin 1800; min_base := Fin 60;
       max_days := Inf; min_days := Fin 1;
       modes := ["casual"; "rated"];
       accept_bot := false; only_bot := true;
       block_list := []; max_recent_bot_challenges := None |}
    Samples.quiet_world
  = (Ok (false, Some "onlyBot"), Samples.quiet_world).
Proof.
  apply (is_supported_contradictory_bot_policy (clock := seconds_clock) 0%Q
           Samples.titled_challenge).
  - reflexivity.
  - reflexivity.
  - reflexivity.
Defined.
